(** * tennis_bot.py: the weekend weather analysis and the booking tracker

    A shallow embedding of [src/tennis_bot.py] and the properties of its
    forecast-window analysis, booking parser and reminder run.

    Conventions of the embedding.
    - Python [float] is IEEE binary64, here Rocq's primitive [float]
      (the same format, the same rounding); numbers read from JSON are taken
      as floats (an integer of JSON below 2^53 is the same number).
    - Python [int] is [Z].
    - A naive [datetime] is the number of seconds of local wall-clock time
      since 1970-01-01 00:00:00; the host's time zone is one fixed offset
      [utc_offset] from UTC.
    - [str] is [string] (bytes, UTF-8); case mapping and digits are ASCII.
    - A raised exception is the [Raise] result; the network, the state file,
      the chat and standard output are fields of an explicit [World]. *)

From Stdlib Require Import ZArith List Bool Lia Sorted Permutation.
From Stdlib Require Import Floats.
From Stdlib Require Import String Ascii DecimalString.
Import ListNotations.

Set Warnings "-inexact-float".

Open Scope string_scope.
Open Scope Z_scope.

(* ================================================================== *)
(** ** Exceptions *)

Inductive exn : Type :=
| KeyError (key : string)
| ValueError (msg : string).

Inductive result (A : Type) : Type :=
| Ok (a : A)
| Raise (e : exn).

Arguments Ok {A} a.
Arguments Raise {A} e.

Definition bind {A B : Type} (c : result A) (k : A -> result B) : result B :=
  match c with
  | Ok a => k a
  | Raise e => Raise e
  end.

Notation "x <- c ;; k" := (bind c (fun x => k))
  (at level 100, c at next level, right associativity).
Notation "' p <- c ;; k" := (bind c (fun x => let 'p := x in k))
  (at level 100, p pattern, c at next level, right associativity).

(** [for x in l: a = f(a, x)], stopping at the first exception. *)
Fixpoint foldM {A B : Type} (f : A -> B -> result A) (l : list B) (a : A)
  : result A :=
  match l with
  | [] => Ok a
  | x :: l' => a' <- f a x ;; foldM f l' a'
  end.

(** [any(p(x) for x in l)]: stops at the first true. *)
Fixpoint anyM {A : Type} (p : A -> result bool) (l : list A) : result bool :=
  match l with
  | [] => Ok false
  | x :: l' => b <- p x ;; if b then Ok true else anyM p l'
  end.

(** [d[key]] on a key that may be absent. *)
Definition getitem {A : Type} (key : string) (v : option A) : result A :=
  match v with
  | Some a => Ok a
  | None => Raise (KeyError key)
  end.

(** [d.get(key, default)]. *)
Definition get_default {A : Type} (v : option A) (default : A) : A :=
  match v with
  | Some a => a
  | None => default
  end.

(* ================================================================== *)
(** ** Strings *)

Definition ascii_lower (c : ascii) : ascii :=
  let n := N_of_ascii c in
  if ((65 <=? n) && (n <=? 90))%N then ascii_of_N (n + 32) else c.

Definition ascii_upper (c : ascii) : ascii :=
  let n := N_of_ascii c in
  if ((97 <=? n) && (n <=? 122))%N then ascii_of_N (n - 32) else c.

(** [s.lower()] on ASCII text: the letters A-Z are mapped, every other byte
    is kept.  Python also maps the capital letters outside ASCII, so the two
    agree on the strings of [is_ascii] and not beyond. *)
Fixpoint lower (s : string) : string :=
  match s with
  | EmptyString => EmptyString
  | String c r => String (ascii_lower c) (lower r)
  end.

(** [s.capitalize()] *)
Definition capitalize (s : string) : string :=
  match s with
  | EmptyString => EmptyString
  | String c r => String (ascii_upper c) (lower r)
  end.

(** [sub in s] *)
Fixpoint contains (sub s : string) : bool :=
  prefix sub s ||
  match s with
  | EmptyString => false
  | String _ r => contains sub r
  end.

(** [x in l] for a list of strings. *)
Definition in_list (x : string) (l : list string) : bool :=
  existsb (String.eqb x) l.

Definition nl : string := String "010"%char EmptyString.

(** The ASCII digits: what [\d] and [int()] take for a digit in ASCII text
    (Python also takes the decimal digits of other scripts). *)
Definition is_digit (c : ascii) : bool :=
  let n := N_of_ascii c in ((48 <=? n) && (n <=? 57))%N.

Definition is_space (c : ascii) : bool :=
  let n := N_of_ascii c in ((9 <=? n) && (n <=? 13))%N || (n =? 32)%N.

(** The decimal digits of a natural number. *)
Definition decimal (n : Z) : string :=
  NilZero.string_of_uint (N.to_uint (Z.to_N n)).

(** [f"{n:02d}"] *)
Definition fmt_02d (n : Z) : string :=
  if n <? 0 then "-" ++ decimal (- n)
  else if n <? 10 then "0" ++ decimal n
  else decimal n.

(* ================================================================== *)
(** ** Floats *)

(** [min(a, b)] and [max(a, b)]: the first argument unless the second is
    strictly smaller (larger). *)
Definition pymin (a b : float) : float := if (b <? a)%float then b else a.
Definition pymax (a b : float) : float := if (a <? b)%float then b else a.

(** The integer nearest to [m * 2^e], ties to even. *)
Definition round_half_even (m e : Z) : Z :=
  if 0 <=? e then m * 2 ^ e
  else
    let d := 2 ^ (- e) in
    let q := m / d in
    let r := m mod d in
    if 2 * r <? d then q
    else if d <? 2 * r then q + 1
    else if Z.even q then q else q + 1.

(** [f"{x:.0f}"] *)
Definition format_0f (x : float) : string :=
  match Prim2SF x with
  | S754_nan => "nan"
  | S754_infinity s => if s then "-inf" else "inf"
  | S754_zero s => if s then "-0" else "0"
  | S754_finite s m e =>
      (if s then "-" else "") ++ decimal (round_half_even (Zpos m) e)
  end.

(** The place of a float in the order of the comparison [SFcompare]: the
    class (infinities, finite numbers by sign, zero), then exponent and
    mantissa. *)
Definition SFkey (f : spec_float) : Z * (Z * Z) :=
  match f with
  | S754_zero _ => (0, (0, 0))
  | S754_infinity s => (if s then -2 else 2, (0, 0))
  | S754_nan => (0, (0, 0))
  | S754_finite s m e =>
      if s then (-1, (- e, Zneg m)) else (1, (e, Zpos m))
  end.

Definition SFnum (f : spec_float) : bool :=
  match f with S754_nan => false | _ => true end.

Definition lex_lt (a b : Z * (Z * Z)) : Prop :=
  fst a < fst b
  \/ (fst a = fst b
      /\ (fst (snd a) < fst (snd b)
          \/ (fst (snd a) = fst (snd b) /\ snd (snd a) < snd (snd b)))).

(** A float that is a number (not NaN) compares with itself. *)
Definition is_number (x : float) : Prop := (x <=? x)%float = true.

(* ================================================================== *)
(** ** Naive datetimes *)

Definition datetime : Type := Z.

Definition timedelta_hours (h : Z) : Z := h * 3600.
Definition timedelta_days (d : Z) : Z := d * 86400.

(** [dt.hour] *)
Definition dt_hour (d : datetime) : Z := (d / 3600) mod 24.
(** [dt.date()], as the number of the day. *)
Definition dt_date (d : datetime) : Z := d / 86400.
(** [dt.weekday()]: Monday is 0; day 0 was a Thursday. *)
Definition dt_weekday (d : datetime) : Z := (dt_date d + 3) mod 7.

(* ================================================================== *)
(** ** Configuration *)

Definition MAX_WIND_SPEED_MPH : float := 15%float.
Definition PLAYING_HOURS_START : Z := 9.
Definition PLAYING_HOURS_END : Z := 22.
Definition HOURS_BEFORE_SUNSET : Z := 1.

(* ================================================================== *)
(** ** Data *)

(** One forecast dict of the provider's list.  The first five fields are the
    keys the provider sends ([pop] and [weather[0].main] may be absent); the
    last five are the keys [analyze_day_weather] writes into the dict, absent
    in a dict as fetched. *)
Record Forecast : Type := mkForecast {
  fc_dt : Z;                        (* forecast['dt'] *)
  fc_main_temp : float;             (* forecast['main']['temp'] *)
  fc_wind_speed : float;            (* forecast['wind']['speed'] *)
  fc_pop : option float;            (* forecast['pop'] *)
  fc_weather_main : option string;  (* forecast['weather'][0]['main'] *)
  fc_hour : option Z;               (* forecast['hour'] *)
  fc_will_rain : option bool;       (* forecast['will_rain'] *)
  fc_rain_prob : option float;      (* forecast['rain_prob'] *)
  fc_wind_mph : option float;       (* forecast['wind_mph'] *)
  fc_temp : option float            (* forecast['temp'] *)
}.

(** A dict of [dry_windows]: keys start, end, temp, wind. *)
Record DryWindow : Type := mkDryWindow {
  dw_start : Z;
  dw_end : Z;
  dw_temp : float;
  dw_wind : float
}.

(** A dict of [results['windows']]: keys time, temp, wind. *)
Record Window : Type := mkWindow {
  w_time : string;
  w_temp : float;
  w_wind : float
}.

(** The [results] dict. *)
Record Results : Type := mkResults {
  playable : bool;
  windows : list Window;
  reasons : list string;
  temp_range : float * float;
  max_wind : float
}.

Section HostClock.

(** Seconds east of UTC of the host's local time. *)
Variable utc_offset : Z.

(** [datetime.fromtimestamp(ts)] *)
Definition fromtimestamp (ts : Z) : datetime := ts + utc_offset.

(* ================================================================== *)
(** ** analyze_day_weather *)

(** Lines 81-95: the body of the first loop, which writes five keys into
    the forecast dict. *)
Definition enrich (forecast : Forecast) : Forecast :=
  let dt := fromtimestamp (fc_dt forecast) in
  let hour := dt_hour dt in
  let temp := fc_main_temp forecast in
  let wind_speed_ms := fc_wind_speed forecast in
  let wind_speed_mph := (wind_speed_ms * 2.237)%float in
  let rain_prob := (get_default (fc_pop forecast) 0 * 100)%float in
  let will_rain :=
    (30 <? rain_prob)%float
    || contains "rain" (lower (get_default (fc_weather_main forecast) "")) in
  {| fc_dt := fc_dt forecast;
     fc_main_temp := fc_main_temp forecast;
     fc_wind_speed := fc_wind_speed forecast;
     fc_pop := fc_pop forecast;
     fc_weather_main := fc_weather_main forecast;
     fc_hour := Some hour;
     fc_will_rain := Some will_rain;
     fc_rain_prob := Some rain_prob;
     fc_wind_mph := Some wind_speed_mph;
     fc_temp := Some temp |}.

(** The test of lines 103 and 126, whose truth skips the sample. *)
Definition out_of_scope (hour : Z) (dt cutoff_time : datetime) : bool :=
  (hour <? PLAYING_HOURS_START) || (PLAYING_HOURS_END <=? hour)
  || (cutoff_time <? dt).

(** Lines 98-114: the body of the second loop. *)
Definition track_stats (cutoff_time : datetime) (results : Results)
  (forecast : Forecast) : result Results :=
  let dt := fromtimestamp (fc_dt forecast) in
  hour <- getitem "hour" (fc_hour forecast) ;;
  if out_of_scope hour dt cutoff_time then Ok results
  else
    temp <- getitem "temp" (fc_temp forecast) ;;
    wind_mph <- getitem "wind_mph" (fc_wind_mph forecast) ;;
    let temp_range' :=
      (pymin (fst (temp_range results)) temp,
       pymax (snd (temp_range results)) temp) in
    let max_wind' := pymax (max_wind results) wind_mph in
    let reasons' :=
      if (MAX_WIND_SPEED_MPH <? wind_mph)%float then
        if negb (in_list "wind too high" (reasons results)) then
          app (reasons results)
              ["wind speeds up to " ++ format_0f wind_mph ++ "mph"]
        else reasons results
      else reasons results in
    Ok {| playable := playable results;
          windows := windows results;
          reasons := reasons';
          temp_range := temp_range';
          max_wind := max_wind' |}.

(** [sorted(day_forecasts, key=lambda x: x['dt'])]: the stable sort. *)
Fixpoint insert_by_dt (x : Forecast) (l : list Forecast) : list Forecast :=
  match l with
  | [] => [x]
  | y :: l' =>
      if fc_dt x <=? fc_dt y then x :: y :: l' else y :: insert_by_dt x l'
  end.

Definition sorted_by_dt (l : list Forecast) : list Forecast :=
  fold_right insert_by_dt [] l.

(** Lines 122-142: the body of the third loop, on the pair
    [(dry_windows, current_window)]. *)
Definition scan_step (cutoff_time : datetime)
  (st : list DryWindow * option DryWindow) (forecast : Forecast)
  : result (list DryWindow * option DryWindow) :=
  let '(dry_windows, current_window) := st in
  let dt := fromtimestamp (fc_dt forecast) in
  let hour := dt_hour dt in
  if out_of_scope hour dt cutoff_time then Ok st
  else
    will_rain <- getitem "will_rain" (fc_will_rain forecast) ;;
    dry <- (if will_rain then Ok false
            else wind_mph <- getitem "wind_mph" (fc_wind_mph forecast) ;;
                 Ok (wind_mph <=? MAX_WIND_SPEED_MPH)%float) ;;
    if dry then
      match current_window with
      | None =>
          temp <- getitem "temp" (fc_temp forecast) ;;
          wind_mph <- getitem "wind_mph" (fc_wind_mph forecast) ;;
          Ok (dry_windows,
              Some {| dw_start := hour; dw_end := hour + 3;
                      dw_temp := temp; dw_wind := wind_mph |})
      | Some w =>
          Ok (dry_windows,
              Some {| dw_start := dw_start w; dw_end := hour + 3;
                      dw_temp := dw_temp w; dw_wind := dw_wind w |})
      end
    else
      match current_window with
      | Some w => Ok (app dry_windows [w], None)
      | None => Ok (dry_windows, None)
      end.

(** Lines 117-145: the dry windows of the enriched forecasts. *)
Definition find_dry_windows (cutoff_time : datetime)
  (day_forecasts : list Forecast) : result (list DryWindow) :=
  let sorted_forecasts := sorted_by_dt day_forecasts in
  '(dry_windows, current_window) <-
    foldM (scan_step cutoff_time) sorted_forecasts ([], None) ;;
  match current_window with
  | Some w => Ok (app dry_windows [w])
  | None => Ok dry_windows
  end.

(** Lines 148-150: [any(f['will_rain'] and lo <= f.get('hour', 0) < hi ...)],
    with an absent bound as [None]. *)
Definition has_rain_between (lo hi : option Z) (day_forecasts : list Forecast)
  : result bool :=
  anyM (fun f =>
          will_rain <- getitem "will_rain" (fc_will_rain f) ;;
          let hour := get_default (fc_hour f) 0 in
          Ok (will_rain
              && match lo with Some a => a <=? hour | None => true end
              && match hi with Some b => hour <? b | None => true end))
       day_forecasts.

(** Lines 153-164: the dict appended to [results['windows']] for one dry
    window. *)
Definition describe_window (has_morning_rain has_afternoon_rain : bool)
  (window : DryWindow) : Window :=
  let window_desc :=
    fmt_02d (dw_start window) ++ ":00-" ++ fmt_02d (dw_end window) ++ ":00" in
  let window_desc :=
    if (dw_start window <? 12) && has_afternoon_rain
    then window_desc ++ " (before rain)"
    else if (18 <=? dw_start window)
            && (has_morning_rain || has_afternoon_rain)
    then window_desc ++ " (after rain)"
    else window_desc in
  {| w_time := window_desc;
     w_temp := dw_temp window;
     w_wind := dw_wind window |}.

Definition initial_results : Results :=
  {| playable := false;
     windows := [];
     reasons := [];
     temp_range := (999%float, (-999)%float);
     max_wind := 0%float |}.

(** The function returns the forecast dicts as the call leaves them, and
    the [results] dict. *)
Definition analyze_day_weather (day_forecasts : list Forecast)
  (day_name : string) (sunset_time : datetime)
  : result (list Forecast * Results) :=
  let results := initial_results in
  let cutoff_time := sunset_time - timedelta_hours HOURS_BEFORE_SUNSET in
  (* first pass *)
  let day_forecasts := map enrich day_forecasts in
  (* second pass *)
  results <- foldM (track_stats cutoff_time) day_forecasts results ;;
  (* find dry windows *)
  dry_windows <- find_dry_windows cutoff_time day_forecasts ;;
  (* analyze windows *)
  has_morning_rain <- has_rain_between None (Some 12) day_forecasts ;;
  has_afternoon_rain <- has_rain_between (Some 12) (Some 18) day_forecasts ;;
  has_evening_rain <- has_rain_between (Some 18) None day_forecasts ;;
  let windows' :=
    app (windows results)
        (map (describe_window has_morning_rain has_afternoon_rain)
             dry_windows) in
  let playable' :=
    (0 <? List.length windows')%nat
    && (max_wind results <=? MAX_WIND_SPEED_MPH)%float in
  Ok (day_forecasts,
      {| playable := playable';
         windows := windows';
         reasons := reasons results;
         temp_range := temp_range results;
         max_wind := max_wind results |}).

End HostClock.

(* ================================================================== *)
(** ** More of Python's strings: split, strip, int *)

(** [s.split(':')[0]]: what stands before the first colon. *)
Fixpoint before_colon (s : string) : string :=
  match s with
  | EmptyString => EmptyString
  | String c r => if (c =? ":")%char then EmptyString
                  else String c (before_colon r)
  end.

Fixpoint lstrip (s : string) : string :=
  match s with
  | EmptyString => EmptyString
  | String c r => if is_space c then lstrip r else s
  end.

Fixpoint rev_string (s acc : string) : string :=
  match s with
  | EmptyString => acc
  | String c r => rev_string r (String c acc)
  end.

(** [s.strip()] *)
Definition strip (s : string) : string :=
  rev_string (lstrip (rev_string (lstrip s) "")) "".

(** The value of a run of decimal digits, single underscores allowed between
    two digits; [None] when the text is not such a run. *)
Fixpoint digits_value (s : string) (acc : Z) (after_digit : bool) : option Z :=
  match s with
  | EmptyString => if after_digit then Some acc else None
  | String c r =>
      if is_digit c
      then digits_value r (10 * acc + (Z.of_N (N_of_ascii c) - 48)) true
      else if (c =? "_")%char && after_digit then digits_value r acc false
      else None
  end.

(** [int(s)] for a string: blanks around, a sign, decimal digits. *)
Definition py_int (s : string) : result Z :=
  let body := strip s in
  let '(negative, digits) :=
    match body with
    | String "-" r => (true, r)
    | String "+" r => (false, r)
    | _ => (false, body)
    end in
  match digits_value digits 0 false with
  | Some n => Ok (if negative then - n else n)
  | None => Raise (ValueError "invalid literal for int() with base 10")
  end.

(** [min(l, key=key)] of a list [x :: l]: the first element of least key. *)
Fixpoint min_by {A : Type} (key : A -> Z) (x : A) (l : list A) : A :=
  match l with
  | [] => x
  | y :: l' => min_by key (if key y <? key x then y else x) l'
  end.

(* ================================================================== *)
(** ** The booking state and the outside world *)

(** The dict under the key [booking] of the state: keys day and time. *)
Record Booking : Type := mkBooking {
  bk_day : string;
  bk_time : string
}.

(** The state dict, [{"booking": ...}]; [None] is JSON's null. *)
Record State : Type := mkState {
  booking : option Booking
}.

(** What the program reads and writes outside itself: the state file
    ([None] while it does not exist), the messages sent to the chat and the
    lines printed, oldest first. *)
Record World : Type := mkWorld {
  state_file : option State;
  sent : list string;
  printed : list string
}.

(** The forecast response: its key [list] may be absent. *)
Record WeatherData : Type := mkWeatherData {
  wd_list : option (list Forecast)
}.

(** One update of the chat: [None] without the key [message], [Some None]
    for a message without the key [text]. *)
Record Update : Type := mkUpdate {
  upd_message : option (option string)
}.

Definition print (line : string) (w : World) : World :=
  {| state_file := state_file w;
     sent := sent w;
     printed := app (printed w) [line] |}.

Definition send_telegram_message (message : string) (w : World) : World :=
  {| state_file := state_file w;
     sent := app (sent w) [message];
     printed := printed w |}.

Definition load_state (w : World) : State :=
  match state_file w with
  | Some state => state
  | None => {| booking := None |}
  end.

Definition save_state (state : State) (w : World) : World :=
  {| state_file := Some state;
     sent := sent w;
     printed := printed w |}.

(* ================================================================== *)
(** ** friday_reminder *)

(** Lines 265-268: the coming Saturday or Sunday. *)
Definition target_day_of (day : string) (today : datetime) : datetime :=
  if (lower day =? "saturday")%string
  then today + timedelta_days ((5 - dt_weekday today) mod 7)
  else today + timedelta_days ((6 - dt_weekday today) mod 7).

Section Reminder.

Variable utc_offset : Z.

(** Lines 274-279: the forecasts of the target day within two hours of the
    booked hour. *)
Definition relevant_forecasts (target_day : datetime) (target_hour : Z)
  (forecasts : list Forecast) : list Forecast :=
  filter (fun forecast =>
            let dt := fromtimestamp utc_offset (fc_dt forecast) in
            (dt_date dt =? dt_date target_day)
            && (Z.abs (dt_hour dt - target_hour) <=? 2))
         forecasts.

(** Lines 293-305: the text of the reminder. *)
Definition reminder_message (day time : string) (closest : Forecast) : string :=
  let temp := fc_main_temp closest in
  let wind_speed_mph := (fc_wind_speed closest * 2.237)%float in
  let rain_prob := (get_default (fc_pop closest) 0 * 100)%float in
  let will_rain :=
    (30 <? rain_prob)%float
    || contains "rain" (lower (get_default (fc_weather_main closest) "")) in
  let message :=
    "üéæ <b>Tennis Reminder - " ++ capitalize day ++ " at " ++ time
      ++ "</b>" ++ nl ++ nl in
  let message :=
    message ++ "üå°Ô∏è Temperature: " ++ format_0f temp ++ "¬∞C" ++ nl in
  let message :=
    message ++ "üí® Wind: " ++ format_0f wind_speed_mph ++ "mph" ++ nl in
  let message :=
    message ++ "üåßÔ∏è Rain chance: " ++ format_0f rain_prob ++ "%"
      ++ nl ++ nl in
  let message :=
    if will_rain
    then message ++ "‚ö†Ô∏è Rain is likely - might want to cancel!" ++ nl
    else if (MAX_WIND_SPEED_MPH <? wind_speed_mph)%float
    then message ++ "‚ö†Ô∏è High winds (" ++ format_0f wind_speed_mph
           ++ "mph) - might be tricky!" ++ nl
    else message ++ "‚úÖ Conditions look good!" ++ nl in
  message ++ nl ++ "See you on court! üéæ".

(** The run of the reminder mode on the forecast response [weather_data]
    fetched at the local time [now]. *)
Definition friday_reminder (weather_data : WeatherData) (now : datetime)
  (w : World) : result World :=
  let w := print "Running Friday reminder check..." w in
  let state := load_state w in
  match booking state with
  | None => Ok (print "No booking found, skipping reminder" w)
  | Some booking =>
      let day := bk_day booking in
      let time := bk_time booking in
      match wd_list weather_data with
      | None =>
          Ok (send_telegram_message "‚ùå Error fetching weather update" w)
      | Some forecasts =>
          let today := now in
          let target_day := target_day_of day today in
          target_hour <- py_int (before_colon time) ;;
          match relevant_forecasts target_day target_hour forecasts with
          | [] =>
              Ok (send_telegram_message
                    ("‚ö†Ô∏è Reminder: You're booked for " ++ capitalize day
                       ++ " at " ++ time ++ nl ++ nl
                       ++ "Couldn't get detailed forecast for that time.") w)
          | first :: others =>
              let closest :=
                min_by (fun x => Z.abs (dt_hour (fromtimestamp utc_offset (fc_dt x))
                                        - target_hour))
                       first others in
              let w := send_telegram_message (reminder_message day time closest) w in
              (* clear booking after reminder *)
              let state := {| booking := None |} in
              Ok (save_state state w)
          end
      end
  end.

End Reminder.

(* ================================================================== *)
(** ** check_for_bookings *)

(** [re.search(r'(\d{1,2}):?(\d{2})?(?:\s*(?:am|pm))?', s)]: groups 1 and 2
    of the leftmost match.  Every part after the first digit is optional, so
    the match starts at the first digit of [s] and each greedy choice stands:
    two digits when a second one follows, a colon when it is next, then two
    more digits when both are there.  Digits are the ASCII digits: on the
    strings of [is_ascii] this is the search of the code. *)
Fixpoint time_search (s : string) : option (string * option string) :=
  match s with
  | EmptyString => None
  | String c r =>
      if is_digit c then
        let '(group1, rest) :=
          match r with
          | String c2 r2 =>
              if is_digit c2 then (String c (String c2 EmptyString), r2)
              else (String c EmptyString, r)
          | EmptyString => (String c EmptyString, r)
          end in
        let rest :=
          match rest with
          | String ":" r' => r'
          | _ => rest
          end in
        let group2 :=
          match rest with
          | String d1 (String d2 _) =>
              if is_digit d1 && is_digit d2
              then Some (String d1 (String d2 EmptyString))
              else None
          | _ => None
          end in
        Some (group1, group2)
      else time_search r
  end.

(** Lines 353-359: the hour after the am/pm rules. *)
Definition meridiem_hour (message : string) (hour : Z) : Z :=
  if contains "pm" message && (hour <? 12) then hour + 12
  else if contains "am" message && (hour =? 12) then 0
  else if (hour <? 9) && negb (contains "am" message)
          && negb (contains "pm" message)
  then hour + 12
  else hour.

(** Lines 341-366: the booking a lower-cased message holds; [None] when it
    does not say "booked" or holds no time. *)
Definition parse_booking (message : string) : result (option Booking) :=
  if contains "booked" message then
    let day :=
      if contains "saturday" message || contains "sat" message
      then "saturday" else "sunday" in
    match time_search message with
    | Some (group1, group2) =>
        hour <- py_int group1 ;;
        let minute := get_default group2 "00" in
        let hour := meridiem_hour message hour in
        let time_str := fmt_02d hour ++ ":" ++ minute in
        Ok (Some {| bk_day := day; bk_time := time_str |})
    | None => Ok None
    end
  else Ok None.

(** Lines 328-370: the loop over the updates. *)
Fixpoint process_updates (state : State) (updates : list Update) (w : World)
  : result World :=
  match updates with
  | [] => Ok w
  | update :: updates' =>
      match upd_message update with
      | None => process_updates state updates' w
      | Some text =>
          let message := lower (get_default text "") in
          if contains "stop" message then
            let state := {| booking := None |} in
            let w := save_state state w in
            Ok (send_telegram_message
                  "üëç Stopped - no booking this week." w)
          else
            parsed <- parse_booking message ;;
            match parsed with
            | Some b =>
                let state := {| booking := Some b |} in
                let w := save_state state w in
                Ok (send_telegram_message
                      ("‚úÖ Booked! I'll remind you on Friday about "
                         ++ capitalize (bk_day b) ++ " at " ++ bk_time b ++ ".")
                      w)
            | None => process_updates state updates' w
            end
      end
  end.

(** The run of the booking check on the updates the chat returns ([None]
    without the key [result]). *)
Definition check_for_bookings (data : option (list Update)) (w : World)
  : result World :=
  let w := print "Checking for booking messages..." w in
  match data with
  | None | Some [] => Ok w
  | Some updates => process_updates (load_state w) updates w
  end.

(* ================================================================== *)
(** ** What the analysis reads off a sample

    The values the first loop stores under the keys hour, wind_mph,
    rain_prob and will_rain, as functions of the dict as fetched; the scope
    test; and the window scan as a recursive function.  The lemmas below
    prove that [analyze_day_weather] computes exactly these. *)

Section Reading.

Variable utc_offset : Z.

Definition hour_of (f : Forecast) : Z :=
  dt_hour (fromtimestamp utc_offset (fc_dt f)).

Definition wind_mph_of (f : Forecast) : float :=
  (fc_wind_speed f * 2.237)%float.

Definition rain_prob_of (f : Forecast) : float :=
  (get_default (fc_pop f) 0 * 100)%float.

Definition will_rain_of (f : Forecast) : bool :=
  (30 <? rain_prob_of f)%float
  || contains "rain" (lower (get_default (fc_weather_main f) "")).

(** [cutoff_time] of line 78. *)
Definition cutoff_of (sunset_time : datetime) : datetime :=
  sunset_time - timedelta_hours HOURS_BEFORE_SUNSET.

(** A sample is in scope when neither loop skips it. *)
Definition in_scope (cutoff_time : datetime) (f : Forecast) : bool :=
  negb (out_of_scope (hour_of f) (fromtimestamp utc_offset (fc_dt f))
                     cutoff_time).

(** The in-scope samples in chronological order. *)
Definition in_scope_sorted (cutoff_time : datetime) (l : list Forecast)
  : list Forecast :=
  filter (in_scope cutoff_time) (sorted_by_dt l).

(** The condition of line 129. *)
Definition is_dry (f : Forecast) : bool :=
  negb (will_rain_of f) && (wind_mph_of f <=? MAX_WIND_SPEED_MPH)%float.

(** The condition of line 112. *)
Definition windy (f : Forecast) : bool :=
  (MAX_WIND_SPEED_MPH <? wind_mph_of f)%float.

(** The string line 114 appends for a sample. *)
Definition wind_reason (f : Forecast) : string :=
  "wind speeds up to " ++ format_0f (wind_mph_of f) ++ "mph".

(** The second loop's update of [results] for an in-scope sample. *)
Definition stats_step (results : Results) (f : Forecast) : Results :=
  {| playable := playable results;
     windows := windows results;
     reasons :=
       if windy f then
         if negb (in_list "wind too high" (reasons results))
         then app (reasons results) [wind_reason f]
         else reasons results
       else reasons results;
     temp_range :=
       (pymin (fst (temp_range results)) (fc_main_temp f),
        pymax (snd (temp_range results)) (fc_main_temp f));
     max_wind := pymax (max_wind results) (wind_mph_of f) |}.

(** The third loop's update of [(dry_windows, current_window)] for an
    in-scope sample. *)
Definition scan_pure (st : list DryWindow * option DryWindow) (f : Forecast)
  : list DryWindow * option DryWindow :=
  let '(dry_windows, current_window) := st in
  if is_dry f then
    match current_window with
    | None =>
        (dry_windows,
         Some {| dw_start := hour_of f; dw_end := hour_of f + 3;
                 dw_temp := fc_main_temp f; dw_wind := wind_mph_of f |})
    | Some w =>
        (dry_windows,
         Some {| dw_start := dw_start w; dw_end := hour_of f + 3;
                 dw_temp := dw_temp w; dw_wind := dw_wind w |})
    end
  else
    match current_window with
    | Some w => (app dry_windows [w], None)
    | None => (dry_windows, None)
    end.

(** The window of a run of dry samples: it starts at the hour of the first
    sample [fst run], ends three hours after the hour of the last one, and
    carries the temperature and wind of the first. *)
Definition window_of_run (run : Forecast * list Forecast) : DryWindow :=
  {| dw_start := hour_of (fst run);
     dw_end := hour_of (last (snd run) (fst run)) + 3;
     dw_temp := fc_main_temp (fst run);
     dw_wind := wind_mph_of (fst run) |}.

(** The windows the scan yields from the in-scope samples [fs] when the
    open window covers [cur]. *)
Fixpoint collect (cur : option (Forecast * list Forecast))
  (fs : list Forecast) : list DryWindow :=
  match fs with
  | [] =>
      match cur with
      | Some run => [window_of_run run]
      | None => []
      end
  | f :: fs' =>
      if is_dry f then
        match cur with
        | None => collect (Some (f, [])) fs'
        | Some run => collect (Some (fst run, app (snd run) [f])) fs'
        end
      else
        match cur with
        | Some run => window_of_run run :: collect None fs'
        | None => collect None fs'
        end
  end.

(** [dry_runs fs runs]: [runs] are the maximal runs of consecutive dry
    samples of [fs], in order, each as its first sample and the rest. *)
Inductive dry_runs : list Forecast -> list (Forecast * list Forecast) -> Prop :=
| runs_nil : dry_runs [] []
| runs_gap f fs runs :
    is_dry f = false -> dry_runs fs runs -> dry_runs (f :: fs) runs
| runs_last f run :
    is_dry f = true -> Forall (fun g => is_dry g = true) run ->
    dry_runs (f :: run) [(f, run)]
| runs_run f run g fs runs :
    is_dry f = true -> Forall (fun g => is_dry g = true) run ->
    is_dry g = false -> dry_runs fs runs ->
    dry_runs (f :: app run (g :: fs)) ((f, run) :: runs).

(** The value of lines 148-150 on the samples as fetched. *)
Definition rain_between (lo hi : option Z) (l : list Forecast) : bool :=
  existsb (fun f =>
             will_rain_of f
             && match lo with Some a => a <=? hour_of f | None => true end
             && match hi with Some b => hour_of f <? b | None => true end) l.

(** The dict [analyze_day_weather] returns, in closed form. *)
Definition analysis_of (l : list Forecast) (sunset_time : datetime) : Results :=
  let cutoff_time := cutoff_of sunset_time in
  let stats :=
    fold_left stats_step (filter (in_scope cutoff_time) l) initial_results in
  let windows' :=
    map (describe_window (rain_between None (Some 12) l)
                         (rain_between (Some 12) (Some 18) l))
        (collect None (in_scope_sorted cutoff_time l)) in
  {| playable :=
       (0 <? List.length windows')%nat
       && (max_wind stats <=? MAX_WIND_SPEED_MPH)%float;
     windows := windows';
     reasons := reasons stats;
     temp_range := temp_range stats;
     max_wind := max_wind stats |}.

(** What the suffix of a window's text can be. *)
Definition rain_note (suffix : string) : Prop :=
  suffix = "" \/ suffix = " (before rain)" \/ suffix = " (after rain)".

(** The window [w] of the results shows the run [run]: the temperature and
    wind of its first sample, and a text from the hour of the first sample
    to three hours after the hour of the last. *)
Definition shows_run (w : Window) (run : Forecast * list Forecast) : Prop :=
  w_temp w = fc_main_temp (fst run)
  /\ w_wind w = wind_mph_of (fst run)
  /\ exists suffix,
       rain_note suffix
       /\ w_time w
          = fmt_02d (hour_of (fst run)) ++ ":00-"
            ++ fmt_02d (hour_of (last (snd run) (fst run)) + 3) ++ ":00"
            ++ suffix.

(** The hour of [b] is at least two after the hour of [a]. *)
Definition two_hours_apart (a b : Forecast) : Prop :=
  hour_of a + 2 <= hour_of b.

(** The first loop leaves in [f'] the keys of [f] as fetched and the five
    keys it computes. *)
Definition enriched (f f' : Forecast) : Prop :=
  fc_dt f' = fc_dt f
  /\ fc_main_temp f' = fc_main_temp f
  /\ fc_wind_speed f' = fc_wind_speed f
  /\ fc_pop f' = fc_pop f
  /\ fc_weather_main f' = fc_weather_main f
  /\ fc_hour f' = Some (hour_of f)
  /\ fc_will_rain f' = Some (will_rain_of f)
  /\ fc_rain_prob f' = Some (rain_prob_of f)
  /\ fc_wind_mph f' = Some (wind_mph_of f)
  /\ fc_temp f' = Some (fc_main_temp f).

End Reading.

(** A window has its three hours at least. *)
Definition three_hours (w : DryWindow) : Prop := dw_start w + 3 <= dw_end w.

(* ================================================================== *)
(** ** Sample days

    Forecast dicts as fetched, on day 0 of a host on UTC: the hour of the
    sample, its temperature, wind speed in m/s, probability of precipitation
    and condition. *)

Definition sample (hour : Z) (temp wind_ms pop : float) (main : string)
  : Forecast :=
  {| fc_dt := hour * 3600;
     fc_main_temp := temp;
     fc_wind_speed := wind_ms;
     fc_pop := Some pop;
     fc_weather_main := Some main;
     fc_hour := None;
     fc_will_rain := None;
     fc_rain_prob := None;
     fc_wind_mph := None;
     fc_temp := None |}.

(** The update that carries the text [text]. *)
Definition text_update (text : string) : Update :=
  {| upd_message := Some (Some text) |}.

(** The local time [hour]:[minute] of day 0. *)
Definition clock (hour minute : Z) : datetime := hour * 3600 + minute * 60.

(** Chronological order of two samples. *)
Definition dt_le (a b : Forecast) : Prop := fc_dt a <= fc_dt b.

(** Two windows in chronological order that do not overlap. *)
Definition before (w1 w2 : DryWindow) : Prop := dw_end w1 <= dw_start w2.

(* ================================================================== *)
(** ** wednesday_check *)

(** [dt.minute] *)
Definition dt_minute (d : datetime) : Z := (d / 60) mod 60.

(** [dt.strftime('%H:%M')] *)
Definition strftime_HM (d : datetime) : string :=
  fmt_02d (dt_hour d) ++ ":" ++ fmt_02d (dt_minute d).

(** Lines 210-229: the report of one day. *)
Definition format_day_report (day_name : string) (analysis : Results)
  (sunset : datetime) : string :=
  let report := "<b>" ++ day_name ++ "</b>" ++ nl in
  let report :=
    if playable analysis then
      fold_left
        (fun report window =>
           report ++ "  ‚Ä¢ " ++ w_time window ++ ": "
             ++ format_0f (w_temp window) ++ "¬∞C, wind "
             ++ format_0f (w_wind window) ++ "mph" ++ nl)
        (windows analysis)
        (report ++ "‚úÖ Good for tennis!" ++ nl)
    else
      let report := report ++ "‚ùå Not ideal" ++ nl in
      let report :=
        match reasons analysis with
        | [] => report
        | _ =>
            fold_left (fun report reason =>
                         report ++ "  ‚Ä¢ " ++ reason ++ nl)
                      (reasons analysis) report
        end in
      match windows analysis with
      | [] =>
          report ++ "  ‚Ä¢ Rain forecast throughout playing hours" ++ nl
      | _ => report
      end in
  let report :=
    if negb (fst (temp_range analysis) =? 999)%float
    then report ++ "Temp range: " ++ format_0f (fst (temp_range analysis))
           ++ "-" ++ format_0f (snd (temp_range analysis)) ++ "¬∞C" ++ nl
    else report in
  report ++ "Sunset: " ++ strftime_HM sunset ++ nl.

(** Lines 235-238: the last line of the weekend message. *)
Definition weekend_closing (sat_analysis sun_analysis : Results) : string :=
  if playable sat_analysis || playable sun_analysis
  then nl ++ "üí¨ Reply with your booking (e.g., 'Booked for Sunday at 15:00') or 'stop' to skip this week."
  else nl ++ "üòî No tennis this week - try again next Wednesday!".

(** Lines 208-238: the weekend message. *)
Definition weekend_message (sat_analysis : Results) (sat_sunset : datetime)
  (sun_analysis : Results) (sun_sunset : datetime) : string :=
  let message :=
    "üéæ <b>Edinburgh Tennis Weather - Weekend Forecast</b>" ++ nl ++ nl in
  let message :=
    message ++ format_day_report "Saturday" sat_analysis sat_sunset in
  let message := message ++ nl in
  let message :=
    message ++ format_day_report "Sunday" sun_analysis sun_sunset in
  message ++ weekend_closing sat_analysis sun_analysis.

Section Weekend.

Variable utc_offset : Z.

(** Lines 55-66.  The request carries the coordinates only: the argument
    [date] goes into a local that nothing reads, and the result is the field
    [sys.sunset] of the response, here [sys_sunset]. *)
Definition get_sunset_time (date : datetime) (sys_sunset : Z) : datetime :=
  fromtimestamp utc_offset sys_sunset.

(** Lines 189-197: the forecasts of the Saturday and of the Sunday. *)
Definition weekend_forecasts (saturday sunday : datetime)
  (forecasts : list Forecast) : list Forecast * list Forecast :=
  fold_left
    (fun lists forecast =>
       let '(saturday_forecasts, sunday_forecasts) := lists in
       let dt := fromtimestamp utc_offset (fc_dt forecast) in
       if dt_date dt =? dt_date saturday
       then (app saturday_forecasts [forecast], sunday_forecasts)
       else if dt_date dt =? dt_date sunday
       then (saturday_forecasts, app sunday_forecasts [forecast])
       else lists)
    forecasts ([], []).

(** The run of the weekly advisory on the forecast response [weather_data]
    fetched at the local time [now] and on the fields [sys.sunset] of the two
    responses to the sunset requests.  The coordinates read from the
    forecast response only go into those requests and are not modelled. *)
Definition wednesday_check (weather_data : WeatherData) (now : datetime)
  (sat_sys_sunset sun_sys_sunset : Z) (w : World) : result World :=
  let w := print "Running Wednesday weather check..." w in
  match wd_list weather_data with
  | None =>
      Ok (send_telegram_message "‚ùå Error fetching weather data" w)
  | Some forecasts =>
      let today := now in
      let saturday :=
        today + timedelta_days ((5 - dt_weekday today) mod 7) in
      let sunday := saturday + timedelta_days 1 in
      let '(saturday_forecasts, sunday_forecasts) :=
        weekend_forecasts saturday sunday forecasts in
      let sat_sunset := get_sunset_time saturday sat_sys_sunset in
      let sun_sunset := get_sunset_time sunday sun_sys_sunset in
      sat <- analyze_day_weather utc_offset saturday_forecasts "Saturday"
               sat_sunset ;;
      sun <- analyze_day_weather utc_offset sunday_forecasts "Sunday"
               sun_sunset ;;
      let sat_analysis := snd sat in
      let sun_analysis := snd sun in
      Ok (send_telegram_message
            (weekend_message sat_analysis sat_sunset sun_analysis sun_sunset)
            w)
  end.

End Weekend.

(** The report of a day whose analysis found no in-scope sample. *)
Definition nothing_in_scope_report (day_name : string) (sunset : datetime)
  : string :=
  "<b>" ++ day_name ++ "</b>" ++ nl
  ++ "‚ùå Not ideal" ++ nl
  ++ "  ‚Ä¢ Rain forecast throughout playing hours" ++ nl
  ++ "Sunset: " ++ strftime_HM sunset ++ nl.

(* ================================================================== *)
(** ** ASCII text, and orders on samples, runs and windows *)

(** A string of ASCII characters only.  On such strings [lower], [is_digit]
    and [time_search] are Python's [str.lower], [\d] and [re.search]. *)
Fixpoint is_ascii (s : string) : bool :=
  match s with
  | EmptyString => true
  | String c r => (N_of_ascii c <? 128)%N && is_ascii r
  end.

(** An update whose text, when it has one, is ASCII. *)
Definition ascii_update (u : Update) : Prop :=
  match upd_message u with
  | Some (Some text) => is_ascii text = true
  | _ => True
  end.

(** The hour of [b] is after the hour of [a]. *)
Definition hours_increase (tz : Z) (a b : Forecast) : Prop :=
  hour_of tz a < hour_of tz b.

(** The samples of a run. *)
Definition run_samples (run : Forecast * list Forecast) : list Forecast :=
  fst run :: snd run.

(** Every sample of the run [r1] is at or before every sample of [r2]. *)
Definition run_precedes (r1 r2 : Forecast * list Forecast) : Prop :=
  forall a b, In a (run_samples r1) -> In b (run_samples r2) ->
              fc_dt a <= fc_dt b.

(** The window [w2] starts later and ends later than [w1]. *)
Definition later (w1 w2 : DryWindow) : Prop :=
  dw_start w1 < dw_start w2 /\ dw_end w1 < dw_end w2.

(* ================================================================== *)
(** * Properties *)

(** ** The formatting and parsing helpers on sample inputs *)

Example format_0f_ties :
  map format_0f [0.5; 1.5; 2.5; 15.659; (-0.3); 1e22]%float
  = ["0"; "2"; "2"; "16"; "-0"; "10000000000000000000000"].
Proof. reflexivity. Qed.

Example fmt_02d_pads : map fmt_02d [0; 9; 10; 24; 123; -5]
  = ["00"; "09"; "10"; "24"; "123"; "-5"].
Proof. reflexivity. Qed.

Example time_search_groups :
  map time_search ["at 15:00"; "at 3pm"; "at 3:30 pm"; "at 1500"; "at 150";
                   "no time"]
  = [Some ("15", Some "00"); Some ("3", None); Some ("3", Some "30");
     Some ("15", Some "00"); Some ("15", None); None].
Proof. reflexivity. Qed.

Example py_int_reads :
  map py_int ["15"; " 07 "; "-3"; "1_5"]
  = [Ok 15; Ok 7; Ok (-3); Ok 15].
Proof. reflexivity. Qed.

Example weekday_of_epoch_is_thursday : dt_weekday 0 = 3.
Proof. reflexivity. Qed.

(** ** The order of floats *)

Lemma SFltb_key a b :
  SFltb a b = true <->
  SFnum a = true /\ SFnum b = true /\ lex_lt (SFkey a) (SFkey b).
Proof.
  unfold SFltb, lex_lt.
  destruct a as [[]|[]| |[] m e], b as [[]|[]| |[] m' e']; cbn;
    try (split; [intros H; try discriminate H; repeat split; lia
                | intros (H1 & H2 & H); try discriminate; try reflexivity; lia]).
  all: change (PosDef.Pos.compare_cont Eq m m') with (Pos.compare m m');
    destruct (Z.compare_spec e e'); try destruct (Pos.compare_spec m m'); cbn;
    (split; [intros H'; try discriminate H'; repeat split; lia
            | intros (H1 & H2 & H'); try reflexivity; lia]).
Qed.

Lemma SFleb_key a b :
  SFleb a b = true <->
  SFnum a = true /\ SFnum b = true
  /\ (lex_lt (SFkey a) (SFkey b) \/ SFkey a = SFkey b).
Proof.
  unfold SFleb, lex_lt.
  destruct a as [[]|[]| |[] m e], b as [[]|[]| |[] m' e']; cbn;
    try (split; [intros H; try discriminate H; repeat split;
                 try (left; lia); try (right; reflexivity)
                | intros (H1 & H2 & [H|H]);
                  try discriminate; try reflexivity; lia]).
  all: change (PosDef.Pos.compare_cont Eq m m') with (Pos.compare m m');
    destruct (Z.compare_spec e e'); try destruct (Pos.compare_spec m m'); cbn;
    (split; [intros H'; try discriminate H'; repeat split; subst;
             try (left; lia); try (right; reflexivity)
            | intros (H1 & H2 & [H'|H']);
              try reflexivity; try lia; injection H'; intros; lia]).
Qed.

Lemma is_number_SFnum x : is_number x <-> SFnum (Prim2SF x) = true.
Proof.
  unfold is_number. rewrite leb_spec, SFleb_key. intuition.
Qed.

Lemma ltb_is_number_l x y : (x <? y)%float = true -> is_number x.
Proof.
  rewrite ltb_spec, SFltb_key, is_number_SFnum. tauto.
Qed.

Lemma ltb_is_number_r x y : (x <? y)%float = true -> is_number y.
Proof.
  rewrite ltb_spec, SFltb_key, is_number_SFnum. tauto.
Qed.

Lemma ltb_trans x y z :
  (x <? y)%float = true -> (y <? z)%float = true -> (x <? z)%float = true.
Proof.
  rewrite !ltb_spec, !SFltb_key. unfold lex_lt.
  intros (? & ? & ?) (? & ? & ?). repeat split; trivial. lia.
Qed.

Lemma ltb_leb_trans x y z :
  (x <? y)%float = true -> (y <=? z)%float = true -> (x <? z)%float = true.
Proof.
  rewrite !ltb_spec, leb_spec, !SFltb_key, SFleb_key. unfold lex_lt.
  intros (? & ? & ?) (? & ? & [?|E]); repeat split; trivial.
  - lia.
  - rewrite <- E. assumption.
Qed.

Lemma ltb_false_leb x y :
  is_number x -> is_number y -> (x <? y)%float = false -> (y <=? x)%float = true.
Proof.
  rewrite !is_number_SFnum. intros Hx Hy H.
  rewrite leb_spec, SFleb_key. repeat split; trivial.
  destruct (SFltb (Prim2SF x) (Prim2SF y)) eqn:E.
  - rewrite ltb_spec in H. congruence.
  - assert (N : ~ lex_lt (SFkey (Prim2SF x)) (SFkey (Prim2SF y))).
    { intros L. assert (T : SFltb (Prim2SF x) (Prim2SF y) = true)
        by (apply SFltb_key; auto). congruence. }
    unfold lex_lt in *.
    destruct (SFkey (Prim2SF x)) as [a [b c]], (SFkey (Prim2SF y)) as [a' [b' c']].
    cbn in *.
    destruct (Z.eq_dec a a'), (Z.eq_dec b b'), (Z.eq_dec c c');
      subst; try (right; reflexivity); left; lia.
Qed.

Lemma ltb_leb_false x y : (x <? y)%float = true -> (y <=? x)%float = false.
Proof.
  rewrite ltb_spec, SFltb_key. intros (Hx & Hy & L).
  destruct (y <=? x)%float eqn:E; trivial.
  rewrite leb_spec, SFleb_key in E. destruct E as (_ & _ & [L'|E]).
  - unfold lex_lt in *. lia.
  - rewrite E in L. unfold lex_lt in L. lia.
Qed.

Lemma leb_ltb_false x y : (x <=? y)%float = true -> (y <? x)%float = false.
Proof.
  intros H. destruct (y <? x)%float eqn:E; trivial.
  apply ltb_leb_false in E. congruence.
Qed.

(* ------------------------------------------------------------------ *)
(** ** The loops as folds over the samples as fetched *)

Lemma foldM_map_filter {A B C : Type} (f : A -> B -> result A) (g : C -> B)
  (p : C -> bool) (step : A -> C -> A) :
  (forall a x, f a (g x) = Ok (if p x then step a x else a)) ->
  forall l a, foldM f (map g l) a = Ok (fold_left step (filter p l) a).
Proof.
  intros H l. induction l as [|x l IH]; intros a; cbn.
  - reflexivity.
  - rewrite H. cbn. destruct (p x); cbn; apply IH.
Qed.

Lemma anyM_map_existsb {A B : Type} (q : B -> result bool) (g : A -> B)
  (p : A -> bool) :
  (forall x, q (g x) = Ok (p x)) ->
  forall l, anyM q (map g l) = Ok (existsb p l).
Proof.
  intros H l. induction l as [|x l IH]; cbn.
  - reflexivity.
  - rewrite H. cbn. destruct (p x); cbn; [reflexivity | apply IH].
Qed.

Section Loops.

Variable tz : Z.

Lemma track_stats_enrich c r f :
  track_stats tz c r (enrich tz f)
  = Ok (if in_scope tz c f then stats_step r f else r).
Proof.
  unfold track_stats, in_scope, hour_of. cbn.
  destruct (out_of_scope _ _ _); reflexivity.
Qed.

Lemma scan_step_enrich c st f :
  scan_step tz c st (enrich tz f)
  = Ok (if in_scope tz c f then scan_pure tz st f else st).
Proof.
  destruct st as [dws cur].
  unfold scan_step, in_scope, scan_pure, is_dry, will_rain_of, rain_prob_of,
    wind_mph_of, hour_of.
  cbn.
  destruct (out_of_scope _ _ _); cbn; [reflexivity|].
  destruct (_ || _); cbn.
  - destruct cur; reflexivity.
  - destruct (_ <=? _)%float; destruct cur; reflexivity.
Qed.

Lemma has_rain_between_enrich lo hi l :
  has_rain_between lo hi (map (enrich tz) l) = Ok (rain_between tz lo hi l).
Proof.
  apply anyM_map_existsb. intros f. reflexivity.
Qed.

Lemma insert_by_dt_enrich x l :
  insert_by_dt (enrich tz x) (map (enrich tz) l)
  = map (enrich tz) (insert_by_dt x l).
Proof.
  induction l as [|y l IH]; cbn.
  - reflexivity.
  - destruct (fc_dt x <=? fc_dt y); cbn; [reflexivity | now rewrite IH].
Qed.

Lemma sorted_by_dt_enrich l :
  sorted_by_dt (map (enrich tz) l) = map (enrich tz) (sorted_by_dt l).
Proof.
  unfold sorted_by_dt. induction l as [|x l IH]; cbn.
  - reflexivity.
  - rewrite IH. apply insert_by_dt_enrich.
Qed.

(** The state of the scan and the run it is in. *)
Lemma scan_collect fs : forall dws cur,
  (let '(dws', cur') :=
     fold_left (scan_pure tz) fs (dws, option_map (window_of_run tz) cur) in
   match cur' with
   | Some w => app dws' [w]
   | None => dws'
   end)
  = app dws (collect tz cur fs).
Proof.
  induction fs as [|f fs IH]; intros dws cur; cbn.
  - destruct cur; cbn; [reflexivity | now rewrite app_nil_r].
  - destruct (is_dry f) eqn:D; destruct cur as [[f0 pre]|]; cbn.
    + rewrite <- (IH dws (Some (f0, app pre [f]))). cbn.
      unfold window_of_run. cbn. rewrite last_last. reflexivity.
    + rewrite <- (IH dws (Some (f, []))). reflexivity.
    + pose proof (IH (app dws [window_of_run tz (f0, pre)]) None) as H.
      cbn in H. rewrite H, <- app_assoc. reflexivity.
    + apply (IH dws None).
Qed.

Lemma find_dry_windows_enrich c l :
  find_dry_windows tz c (map (enrich tz) l)
  = Ok (collect tz None (in_scope_sorted tz c l)).
Proof.
  unfold find_dry_windows, in_scope_sorted.
  rewrite sorted_by_dt_enrich.
  rewrite (foldM_map_filter _ _ (in_scope tz c) (scan_pure tz)
             (scan_step_enrich c)).
  cbn.
  pose proof (scan_collect (filter (in_scope tz c) (sorted_by_dt l)) [] None)
    as H.
  cbn in H.
  destruct (fold_left _ _ _) as [dws cur]. rewrite <- H.
  destruct cur; reflexivity.
Qed.

(** [analyze_day_weather] raises nothing: it returns the enriched dicts and
    the closed form of the analysis. *)
Lemma analyze_day_weather_eq l name sunset :
  analyze_day_weather tz l name sunset
  = Ok (map (enrich tz) l, analysis_of tz l sunset).
Proof.
  unfold analyze_day_weather, analysis_of.
  fold (cutoff_of sunset).
  rewrite (foldM_map_filter _ _ (in_scope tz (cutoff_of sunset)) stats_step
             (track_stats_enrich (cutoff_of sunset))).
  cbn.
  rewrite find_dry_windows_enrich. cbn.
  rewrite !has_rain_between_enrich. cbn.
  assert (W : forall r,
    windows (fold_left stats_step r initial_results) = []).
  { intros r. 
    assert (G : forall r0, windows (fold_left stats_step r r0) = windows r0).
    { induction r as [|x r IH]; intros r0; cbn; [reflexivity|].
      rewrite IH. reflexivity. }
    apply G. }
  rewrite W. reflexivity.
Qed.

End Loops.

(* ------------------------------------------------------------------ *)
(** ** The aggregates of the second loop *)

Lemma max_wind_fold fs : forall r,
  max_wind (fold_left stats_step fs r)
  = fold_left pymax (map wind_mph_of fs) (max_wind r).
Proof.
  induction fs as [|f fs IH]; intros r; cbn; [reflexivity | now rewrite IH].
Qed.

Lemma temp_range_fold fs : forall r,
  temp_range (fold_left stats_step fs r)
  = fold_left (fun tr t => (pymin (fst tr) t, pymax (snd tr) t))
              (map fc_main_temp fs) (temp_range r).
Proof.
  induction fs as [|f fs IH]; intros r; cbn; [reflexivity | now rewrite IH].
Qed.

Lemma wind_reason_not_too_high f :
  ("wind too high" =? wind_reason f)%string = false.
Proof. reflexivity. Qed.

(** The guard of line 113 never holds: every windy in-scope sample appends
    its own reason. *)
Lemma reasons_fold fs : forall r,
  in_list "wind too high" (reasons r) = false ->
  reasons (fold_left stats_step fs r)
  = app (reasons r) (map wind_reason (filter windy fs)).
Proof.
  induction fs as [|f fs IH]; intros r H; cbn [fold_left filter map].
  - now rewrite app_nil_r.
  - assert (R : reasons (stats_step r f)
                = if windy f then app (reasons r) [wind_reason f]
                  else reasons r).
    { unfold stats_step. cbn. rewrite H. reflexivity. }
    rewrite IH; rewrite R.
    + destruct (windy f); cbn [map]; [rewrite <- app_assoc|]; reflexivity.
    + destruct (windy f); trivial.
      unfold in_list in *. rewrite existsb_app, H. cbn [existsb].
      rewrite wind_reason_not_too_high. reflexivity.
Qed.

Lemma threshold_is_number : is_number MAX_WIND_SPEED_MPH.
Proof. reflexivity. Qed.

Lemma pymax_is_number a b : is_number a -> is_number (pymax a b).
Proof.
  intros H. unfold pymax. destruct (a <? b)%float eqn:E; trivial.
  eapply ltb_is_number_r; eassumption.
Qed.

Lemma fold_pymax_is_number ws : forall a,
  is_number a -> is_number (fold_left pymax ws a).
Proof.
  induction ws as [|w ws IH]; intros a H; cbn; trivial.
  apply IH, pymax_is_number, H.
Qed.

(** The running maximum stays within the threshold while no sample exceeds
    it. *)
Lemma fold_pymax_within ws : forall a,
  (a <=? MAX_WIND_SPEED_MPH)%float = true ->
  (forall w, In w ws -> (MAX_WIND_SPEED_MPH <? w)%float = false) ->
  (fold_left pymax ws a <=? MAX_WIND_SPEED_MPH)%float = true.
Proof.
  induction ws as [|w ws IH]; intros a Ha H; cbn; trivial.
  apply IH.
  - unfold pymax. destruct (a <? w)%float eqn:E; trivial.
    apply ltb_false_leb.
    + exact threshold_is_number.
    + eapply ltb_is_number_r; eassumption.
    + apply H. now left.
  - intros w' Hw'. apply H. now right.
Qed.

Lemma fold_pymax_above ws : forall a,
  (MAX_WIND_SPEED_MPH <? a)%float = true ->
  (MAX_WIND_SPEED_MPH <? fold_left pymax ws a)%float = true.
Proof.
  induction ws as [|w ws IH]; intros a Ha; cbn; trivial.
  apply IH. unfold pymax. destruct (a <? w)%float eqn:E; trivial.
  eapply ltb_trans; eassumption.
Qed.

(** One sample above the threshold puts the running maximum above it. *)
Lemma fold_pymax_spike ws : forall a w,
  is_number a -> In w ws -> (MAX_WIND_SPEED_MPH <? w)%float = true ->
  (MAX_WIND_SPEED_MPH <? fold_left pymax ws a)%float = true.
Proof.
  induction ws as [|w0 ws IH]; intros a w Ha Hin Hw; cbn.
  - destruct Hin.
  - destruct Hin as [->|Hin].
    + apply fold_pymax_above. unfold pymax.
      destruct (a <? w)%float eqn:E; trivial.
      eapply ltb_leb_trans; [eassumption|].
      apply ltb_false_leb; trivial.
      eapply ltb_is_number_r; eassumption.
    + eapply IH; eauto using pymax_is_number.
Qed.

Lemma max_wind_within_iff (fs : list Forecast) :
  (fold_left pymax (map wind_mph_of fs) 0%float <=? MAX_WIND_SPEED_MPH)%float
  = true
  <-> forall f, In f fs -> windy f = false.
Proof.
  split.
  - intros H f Hf. unfold windy.
    destruct (MAX_WIND_SPEED_MPH <? wind_mph_of f)%float eqn:E; trivial.
    assert (S : (MAX_WIND_SPEED_MPH
                 <? fold_left pymax (map wind_mph_of fs) 0%float)%float = true).
    { apply fold_pymax_spike with (w := wind_mph_of f); trivial.
      - reflexivity.
      - now apply in_map. }
    apply ltb_leb_false in S. congruence.
  - intros H. apply fold_pymax_within; [reflexivity|].
    intros w Hw. apply in_map_iff in Hw. destruct Hw as (f & <- & Hf).
    apply H, Hf.
Qed.

(* ------------------------------------------------------------------ *)
(** ** The chronological sort *)

Lemma insert_by_dt_In x l z : In z (insert_by_dt x l) <-> z = x \/ In z l.
Proof.
  induction l as [|y l IH]; cbn.
  - intuition.
  - destruct (fc_dt x <=? fc_dt y); cbn; rewrite ?IH; intuition.
Qed.

Lemma sorted_by_dt_In l z : In z (sorted_by_dt l) <-> In z l.
Proof.
  unfold sorted_by_dt. induction l as [|x l IH]; cbn.
  - tauto.
  - rewrite insert_by_dt_In, IH. intuition.
Qed.

Lemma insert_by_dt_sorted x l :
  StronglySorted dt_le l -> StronglySorted dt_le (insert_by_dt x l).
Proof.
  induction 1 as [|y l S IH F]; cbn.
  - constructor; constructor.
  - destruct (fc_dt x <=? fc_dt y) eqn:E.
    + apply Z.leb_le in E. constructor.
      * now constructor.
      * constructor; [exact E|].
        eapply Forall_impl; [|exact F]. unfold dt_le. intros; lia.
    + apply Z.leb_gt in E. constructor; trivial.
      apply Forall_forall. intros z Hz. apply insert_by_dt_In in Hz.
      destruct Hz as [->|Hz].
      * unfold dt_le. lia.
      * rewrite Forall_forall in F. now apply F.
Qed.

Lemma sorted_by_dt_sorted l : StronglySorted dt_le (sorted_by_dt l).
Proof.
  unfold sorted_by_dt. induction l as [|x l IH]; cbn.
  - constructor.
  - now apply insert_by_dt_sorted.
Qed.

Lemma StronglySorted_filter {A : Type} (R : A -> A -> Prop) (p : A -> bool) l :
  StronglySorted R l -> StronglySorted R (filter p l).
Proof.
  induction 1 as [|x l S IH F]; cbn.
  - constructor.
  - destruct (p x); trivial. constructor; trivial.
    rewrite Forall_forall in *. intros z Hz. apply filter_In in Hz.
    now apply F.
Qed.

Lemma insert_by_dt_head x l :
  Forall (dt_le x) l -> insert_by_dt x l = x :: l.
Proof.
  destruct 1 as [|y l H F]; cbn; trivial.
  unfold dt_le in H. apply Z.leb_le in H. now rewrite H.
Qed.

Lemma filter_insert_by_dt (p : Forecast -> bool) x l :
  StronglySorted dt_le l ->
  filter p (insert_by_dt x l)
  = if p x then insert_by_dt x (filter p l) else filter p l.
Proof.
  induction 1 as [|y l S IH F]; cbn.
  - destruct (p x); reflexivity.
  - destruct (fc_dt x <=? fc_dt y) eqn:E; cbn.
    + apply Z.leb_le in E. destruct (p x) eqn:Px; trivial.
      rewrite insert_by_dt_head; trivial.
      apply Forall_forall. intros z Hz.
      assert (Hz' : In z (y :: l)).
      { change (In z (filter p (y :: l))) in Hz. now apply filter_In in Hz. }
      destruct Hz' as [<-|Hz']; [exact E|].
      rewrite Forall_forall in F. specialize (F z Hz').
      unfold dt_le in *. lia.
    + rewrite IH. destruct (p y), (p x); cbn; rewrite ?E; reflexivity.
Qed.

(** The stable sort commutes with a filter. *)
Lemma filter_sorted_by_dt (p : Forecast -> bool) l :
  filter p (sorted_by_dt l) = sorted_by_dt (filter p l).
Proof.
  induction l as [|x l IH]; cbn; trivial.
  change (fold_right insert_by_dt [] l) with (sorted_by_dt l).
  rewrite filter_insert_by_dt by apply sorted_by_dt_sorted.
  rewrite IH. destruct (p x); reflexivity.
Qed.

Lemma last_cons {A : Type} l : forall (y d : A), last (y :: l) d = last l y.
Proof.
  induction l as [|a l IH]; intros y d; trivial.
  change (last (y :: a :: l) d) with (last (a :: l) d).
  now rewrite (IH a d), (IH a y).
Qed.

Lemma last_In {A : Type} l : forall x : A, In (last l x) (x :: l).
Proof.
  induction l as [|a l IH]; intros x; [now left|].
  rewrite last_cons. right. apply IH.
Qed.

Lemma StronglySorted_last {A : Type} (R : A -> A -> Prop) l : forall x,
  StronglySorted R (x :: l) ->
  forall z, In z (x :: l) -> z = last l x \/ R z (last l x).
Proof.
  induction l as [|y l IH]; intros x S z Hz.
  - destruct Hz as [<-|[]]. now left.
  - apply StronglySorted_inv in S. destruct S as [S F].
    rewrite last_cons.
    destruct Hz as [<-|Hz].
    + right. rewrite Forall_forall in F. apply F, last_In.
    + now apply IH.
Qed.

Lemma StronglySorted_app_inv {A : Type} (R : A -> A -> Prop) l1 l2 :
  StronglySorted R (app l1 l2) ->
  StronglySorted R l1 /\ StronglySorted R l2
  /\ forall a b, In a l1 -> In b l2 -> R a b.
Proof.
  induction l1 as [|x l1 IH]; cbn; intros S.
  - repeat split; trivial; [constructor | intros a b []].
  - apply StronglySorted_inv in S. destruct S as [S F].
    destruct (IH S) as (S1 & S2 & H). repeat split; trivial.
    + constructor; trivial. rewrite Forall_forall in *.
      intros z Hz. apply F, in_or_app. now left.
    + intros a b [<-|Ha] Hb.
      * rewrite Forall_forall in F. apply F, in_or_app. now right.
      * now apply H.
Qed.

(* ------------------------------------------------------------------ *)
(** ** The scan and the runs of dry samples *)

Section Runs.

Variable tz : Z.

Lemma collect_runs fs :
  (exists runs,
     dry_runs fs runs /\ collect tz None fs = map (window_of_run tz) runs)
  /\ (forall f0 pre,
        is_dry f0 = true -> Forall (fun g => is_dry g = true) pre ->
        exists runs,
          dry_runs (f0 :: app pre fs) runs
          /\ collect tz (Some (f0, pre)) fs = map (window_of_run tz) runs).
Proof.
  induction fs as [|f fs [IH1 IH2]].
  - split.
    + exists []. split; [constructor | reflexivity].
    + intros f0 pre D0 Fpre. exists [(f0, pre)]. rewrite app_nil_r.
      split; [now apply runs_last | reflexivity].
  - split.
    + cbn. destruct (is_dry f) eqn:D.
      * destruct (IH2 f [] D (Forall_nil _)) as (runs & R & E).
        exists runs. now split.
      * destruct IH1 as (runs & R & E).
        exists runs. split; [now apply runs_gap | exact E].
    + intros f0 pre D0 Fpre. cbn. destruct (is_dry f) eqn:D.
      * destruct (IH2 f0 (app pre [f])) as (runs & R & E); trivial.
        { apply Forall_app. split; trivial. now constructor. }
        exists runs. rewrite <- app_assoc in R. now split.
      * destruct IH1 as (runs & R & E).
        exists ((f0, pre) :: runs). split; [now apply runs_run|].
        cbn. now rewrite E.
Qed.

(** A stretch of dry samples only extends the open window. *)
Lemma collect_all_dry fs : forall f0 pre,
  Forall (fun g => is_dry g = true) fs ->
  collect tz (Some (f0, pre)) fs = [window_of_run tz (f0, app pre fs)].
Proof.
  induction fs as [|f fs IH]; intros f0 pre F; cbn.
  - now rewrite app_nil_r.
  - apply Forall_cons_iff in F. destruct F as [D F]. rewrite D.
    rewrite IH by exact F. cbn. now rewrite <- app_assoc.
Qed.

Lemma two_hours_apart_trans :
  Relations_1.Transitive (two_hours_apart tz).
Proof.
  intros a b c. unfold two_hours_apart. lia.
Qed.

(** On samples two hours apart the windows of the runs follow one another
    without overlap. *)
Lemma runs_in_order fs runs :
  dry_runs fs runs ->
  StronglySorted (two_hours_apart tz) fs ->
  StronglySorted before (map (window_of_run tz) runs)
  /\ Forall three_hours (map (window_of_run tz) runs)
  /\ Forall (fun run => In (fst run) fs) runs.
Proof.
  induction 1 as [|f fs runs D R IH|f run D F|f run g fs runs D F Dg R IH];
    intros S.
  - repeat split; constructor.
  - apply StronglySorted_inv in S. destruct S as [S _].
    destruct (IH S) as (I1 & I2 & I3). repeat split; trivial.
    eapply Forall_impl; [|exact I3]. intros run H. now right.
  - assert (V : hour_of tz f <= hour_of tz (last run f)).
    { destruct (StronglySorted_last _ _ _ S f (or_introl eq_refl)) as [E'|E'].
      - rewrite <- E'. lia.
      - unfold two_hours_apart in E'. lia. }
    repeat split.
    + repeat constructor.
    + constructor; [|constructor]. unfold three_hours. cbn. lia.
    + constructor; [now left | constructor].
  - change (f :: app run (g :: fs)) with (app (f :: run) (g :: fs)) in S.
    apply StronglySorted_app_inv in S. destruct S as (S1 & S2 & C).
    pose proof (StronglySorted_inv S2) as [S3 G].
    destruct (IH S3) as (I1 & I2 & I3).
    assert (V : hour_of tz f <= hour_of tz (last run f)).
    { destruct (StronglySorted_last _ _ _ S1 f (or_introl eq_refl)) as [E'|E'].
      - rewrite <- E'. lia.
      - unfold two_hours_apart in E'. lia. }
    assert (L : hour_of tz (last run f) + 2 <= hour_of tz g).
    { apply C; [apply last_In | now left]. }
    repeat split.
    + cbn. constructor; trivial.
      rewrite Forall_forall in *. intros w Hw.
      apply in_map_iff in Hw. destruct Hw as (run' & <- & Hrun').
      specialize (I3 run' Hrun'). specialize (G (fst run') I3).
      unfold before, two_hours_apart in *. cbn. lia.
    + cbn. constructor; trivial. unfold three_hours. cbn. lia.
    + constructor; [now left|].
      eapply Forall_impl; [|exact I3]. intros run' H.
      right. apply in_or_app. right. now right.
Qed.

End Runs.

Lemma append_assoc (a b c : string) : (a ++ b) ++ c = a ++ b ++ c.
Proof.
  induction a as [|x a IH]; cbn; [reflexivity | now rewrite IH].
Qed.

(** The text of a window: its hours, then a note on rain or nothing. *)
Lemma describe_window_time m a w :
  exists suffix,
    rain_note suffix
    /\ w_time (describe_window m a w)
       = fmt_02d (dw_start w) ++ ":00-" ++ fmt_02d (dw_end w) ++ ":00"
         ++ suffix.
Proof.
  unfold describe_window, rain_note. cbn [w_time].
  destruct (_ && a).
  - exists " (before rain)". split; [tauto|].
    repeat first [rewrite append_assoc | progress cbn [append]]. reflexivity.
  - destruct (_ && _).
    + exists " (after rain)". split; [tauto|].
      repeat first [rewrite append_assoc | progress cbn [append]]. reflexivity.
    + exists "". split; [tauto|]. reflexivity.
Qed.

Lemma filter_none {A : Type} (p : A -> bool) l :
  (forall x, In x l -> p x = false) -> filter p l = [].
Proof.
  induction l as [|x l IH]; intros H; cbn; trivial.
  rewrite (H x (or_introl eq_refl)). apply IH. intros y Hy. apply H. now right.
Qed.

Lemma in_scope_sorted_In tz c l f :
  In f (in_scope_sorted tz c l) <-> In f l /\ in_scope tz c f = true.
Proof.
  unfold in_scope_sorted. now rewrite filter_In, sorted_by_dt_In.
Qed.

Lemma in_scope_sorted_filter tz c l :
  in_scope_sorted tz c l = sorted_by_dt (filter (in_scope tz c) l).
Proof.
  apply filter_sorted_by_dt.
Qed.

Lemma in_scope_sorted_sorted tz c l :
  StronglySorted dt_le (in_scope_sorted tz c l).
Proof.
  apply StronglySorted_filter, sorted_by_dt_sorted.
Qed.

(* ================================================================== *)
(** * The analysis of a day *)

Lemma nonempty_length {A : Type} (l : list A) :
  (0 <? List.length l)%nat = true <-> l <> [].
Proof.
  destruct l; cbn; split; intros H; congruence.
Qed.

Lemma filter_in_scope_windy tz c l :
  (forall f, In f (filter (in_scope tz c) l) -> windy f = false)
  <-> (forall f, In f l -> in_scope tz c f = true -> windy f = false).
Proof.
  split.
  - intros H f Hf Hs. apply H, filter_In. now split.
  - intros H f Hf. apply filter_In in Hf. now apply H.
Qed.

(** C1.  The day is playable exactly when the analysis holds a window and
    the greatest wind of the in-scope samples, window or not, is within the
    threshold: [max_wind] is the running maximum over all in-scope samples,
    it is within the threshold exactly when no in-scope sample is above it,
    and one in-scope sample above the threshold makes the day not playable
    whatever windows were found. *)
Theorem playable_iff_window_and_day_wind tz l name sunset :
  exists l' r,
    analyze_day_weather tz l name sunset = Ok (l', r)
    /\ max_wind r
       = fold_left pymax
           (map wind_mph_of (filter (in_scope tz (cutoff_of sunset)) l))
           0%float
    /\ (playable r = true
        <-> windows r <> []
            /\ (max_wind r <=? MAX_WIND_SPEED_MPH)%float = true)
    /\ ((max_wind r <=? MAX_WIND_SPEED_MPH)%float = true
        <-> forall f, In f l -> in_scope tz (cutoff_of sunset) f = true ->
                      (MAX_WIND_SPEED_MPH <? wind_mph_of f)%float = false)
    /\ ((exists f, In f l /\ in_scope tz (cutoff_of sunset) f = true
                   /\ (MAX_WIND_SPEED_MPH <? wind_mph_of f)%float = true) ->
        playable r = false).
Proof.
  rewrite analyze_day_weather_eq. do 2 eexists. split; [reflexivity|].
  unfold analysis_of. cbn [playable windows max_wind].
  rewrite max_wind_fold. cbn [max_wind initial_results].
  assert (W := max_wind_within_iff (filter (in_scope tz (cutoff_of sunset)) l)).
  rewrite filter_in_scope_windy in W. unfold windy in W.
  split; [reflexivity|]. split; [|split].
  - rewrite andb_true_iff, nonempty_length. reflexivity.
  - exact W.
  - intros (f & Hf & Hs & Hw).
    apply andb_false_iff. right.
    destruct (_ <=? _)%float eqn:E; trivial.
    rewrite (proj1 W eq_refl f Hf Hs) in Hw. discriminate.
Qed.

(** C8.  Without an in-scope sample the temperature range keeps its
    sentinel, there is no window and the day is not playable. *)
Theorem no_in_scope_sample tz l name sunset :
  (forall f, In f l -> in_scope tz (cutoff_of sunset) f = false) ->
  exists l' r,
    analyze_day_weather tz l name sunset = Ok (l', r)
    /\ temp_range r = (999%float, (-999)%float)
    /\ windows r = []
    /\ playable r = false.
Proof.
  intros H. rewrite analyze_day_weather_eq. do 2 eexists.
  split; [reflexivity|].
  unfold analysis_of. rewrite in_scope_sorted_filter.
  rewrite (filter_none _ _ H). cbn. repeat split; reflexivity.
Qed.

Lemma no_in_scope_sample_witness :
  exists l' r,
    analyze_day_weather 0 [sample 3 8 2 0 "Clear"; sample 23 9 2 0 "Clear"]
      "Saturday" (clock 20 0) = Ok (l', r)
    /\ temp_range r = (999%float, (-999)%float)
    /\ windows r = []
    /\ playable r = false.
Proof.
  apply no_in_scope_sample.
  intros f [<-|[<-|[]]]; reflexivity.
Defined.

(** C2.  When there is an in-scope sample and every in-scope sample is dry
    (no rain flag, wind within the threshold), the analysis holds one window:
    it runs from the hour of the earliest in-scope sample to three hours
    after the hour of the latest, carries the temperature and wind of the
    earliest, and the day is playable. *)
Theorem all_dry_one_window tz l name sunset :
  (exists f, In f l /\ in_scope tz (cutoff_of sunset) f = true) ->
  (forall f, In f l -> in_scope tz (cutoff_of sunset) f = true ->
             will_rain_of f = false
             /\ (wind_mph_of f <=? MAX_WIND_SPEED_MPH)%float = true) ->
  exists l' r first last suffix,
    analyze_day_weather tz l name sunset = Ok (l', r)
    /\ In first l /\ in_scope tz (cutoff_of sunset) first = true
    /\ In last l /\ in_scope tz (cutoff_of sunset) last = true
    /\ (forall f, In f l -> in_scope tz (cutoff_of sunset) f = true ->
                  fc_dt first <= fc_dt f <= fc_dt last)
    /\ rain_note suffix
    /\ windows r
       = [ {| w_time := fmt_02d (hour_of tz first) ++ ":00-"
                        ++ fmt_02d (hour_of tz last + 3) ++ ":00" ++ suffix;
              w_temp := fc_main_temp first;
              w_wind := wind_mph_of first |} ]
    /\ playable r = true.
Proof.
  intros (f0 & Hf0 & Sf0) Hdry.
  set (c := cutoff_of sunset) in *.
  assert (D : Forall (fun g => is_dry g = true) (in_scope_sorted tz c l)).
  { apply Forall_forall. intros g Hg. apply in_scope_sorted_In in Hg.
    destruct Hg as [Hg Sg]. destruct (Hdry g Hg Sg) as [R W].
    unfold is_dry. now rewrite R, W. }
  assert (S := in_scope_sorted_sorted tz c l).
  assert (I := in_scope_sorted_In tz c l).
  destruct (in_scope_sorted tz c l) as [|first rest] eqn:E.
  { exfalso. apply (proj2 (I f0)). now split. }
  destruct (describe_window_time (rain_between tz None (Some 12) l)
              (rain_between tz (Some 12) (Some 18) l)
              (window_of_run tz (first, rest))) as (suffix & N & T).
  rewrite analyze_day_weather_eq.
  exists (map (enrich tz) l), (analysis_of tz l sunset), first,
    (last rest first), suffix.
  split; [reflexivity|].
  destruct (proj1 (I first) (or_introl eq_refl)) as [F1 F2].
  destruct (proj1 (I (last rest first)) (last_In rest first)) as [L1 L2].
  repeat (split; trivial).
  - apply StronglySorted_inv in S. destruct S as [_ F].
    assert (Hf' : In f (first :: rest)) by (apply I; now split).
    destruct Hf' as [<-|Hf']; [lia|].
    rewrite Forall_forall in F. apply F, Hf'.
  - assert (Hf' : In f (first :: rest)) by (apply I; now split).
    destruct (StronglySorted_last _ _ _ S f Hf') as [->|Hl]; [lia | exact Hl].
  - unfold analysis_of. fold c. rewrite E. cbn [windows].
    apply Forall_cons_iff in D. destruct D as [D1 D2].
    cbn [collect]. rewrite D1, (collect_all_dry tz rest first [] D2).
    cbn [app map]. destruct (describe_window _ _ _) as [t tp wd] eqn:DW.
    cbn in T. subst t.
    apply (f_equal w_temp) in DW as DW1. apply (f_equal w_wind) in DW as DW2.
    cbn in DW1, DW2. now subst.
  - unfold analysis_of. fold c. rewrite E. cbn [playable].
    apply andb_true_iff. split.
    + apply Forall_cons_iff in D. destruct D as [D1 D2].
      cbn [collect]. rewrite D1, (collect_all_dry tz rest first [] D2).
      reflexivity.
    + rewrite max_wind_fold. cbn [max_wind initial_results].
      apply max_wind_within_iff. apply filter_in_scope_windy.
      intros f Hf Sf. unfold windy. apply leb_ltb_false.
      now apply Hdry.
Qed.

Lemma all_dry_one_window_witness :
  exists l' r first last suffix,
    analyze_day_weather 0
      [sample 12 14 4 0 "Clouds"; sample 9 12 3 0 "Clear";
       sample 15 13 5 0 "Clear"; sample 6 10 9 1 "Rain"]
      "Saturday" (clock 20 0) = Ok (l', r)
    /\ In first
         [sample 12 14 4 0 "Clouds"; sample 9 12 3 0 "Clear";
          sample 15 13 5 0 "Clear"; sample 6 10 9 1 "Rain"]
    /\ in_scope 0 (cutoff_of (clock 20 0)) first = true
    /\ In last
         [sample 12 14 4 0 "Clouds"; sample 9 12 3 0 "Clear";
          sample 15 13 5 0 "Clear"; sample 6 10 9 1 "Rain"]
    /\ in_scope 0 (cutoff_of (clock 20 0)) last = true
    /\ (forall f,
          In f [sample 12 14 4 0 "Clouds"; sample 9 12 3 0 "Clear";
                sample 15 13 5 0 "Clear"; sample 6 10 9 1 "Rain"] ->
          in_scope 0 (cutoff_of (clock 20 0)) f = true ->
          fc_dt first <= fc_dt f <= fc_dt last)
    /\ rain_note suffix
    /\ windows r
       = [ {| w_time := fmt_02d (hour_of 0 first) ++ ":00-"
                        ++ fmt_02d (hour_of 0 last + 3) ++ ":00" ++ suffix;
              w_temp := fc_main_temp first;
              w_wind := wind_mph_of first |} ]
    /\ playable r = true.
Proof.
  apply all_dry_one_window.
  - exists (sample 9 12 3 0 "Clear"). split; [right; now left | reflexivity].
  - intros f [<-|[<-|[<-|[<-|[]]]]] H; try (split; reflexivity).
    discriminate H.
Defined.

(** C10.  The windows of the analysis are, one for one, the maximal runs of
    consecutive dry samples among the in-scope samples in chronological
    order; each window has the temperature and wind of the first sample of
    its run, and the later samples of the run only move the end of its text
    to three hours after the hour of the last one. *)
Theorem window_carries_first_sample tz l name sunset :
  exists l' r runs,
    analyze_day_weather tz l name sunset = Ok (l', r)
    /\ StronglySorted dt_le (in_scope_sorted tz (cutoff_of sunset) l)
    /\ dry_runs (in_scope_sorted tz (cutoff_of sunset) l) runs
    /\ Forall2 (shows_run tz) (windows r) runs.
Proof.
  destruct (proj1 (collect_runs tz (in_scope_sorted tz (cutoff_of sunset) l)))
    as (runs & R & E).
  rewrite analyze_day_weather_eq.
  exists (map (enrich tz) l), (analysis_of tz l sunset), runs.
  split; [reflexivity|]. split; [apply in_scope_sorted_sorted|].
  split; [exact R|].
  unfold analysis_of. cbn [windows]. rewrite E. clear.
  induction runs as [|run runs IH]; cbn [map]; constructor; trivial.
  unfold shows_run. repeat split.
  destruct (describe_window_time (rain_between tz None (Some 12) l)
              (rain_between tz (Some 12) (Some 18) l)
              (window_of_run tz run)) as (suffix & N & T).
  exists suffix. split; [exact N | exact T].
Qed.

(** C3, as stated, fails on hourly samples: dry at 09:00, rain at 10:00, dry
    at 11:00 give the windows 09:00-12:00 and 11:00-14:00, which overlap. *)
Lemma hourly_samples_overlap :
  exists l' r w1 w2,
    analyze_day_weather 0
      [sample 9 12 3 0 "Clear"; sample 10 12 3 0.8 "Rain";
       sample 11 13 3 0 "Clear"] "Saturday" (clock 20 0) = Ok (l', r)
    /\ find_dry_windows 0 (cutoff_of (clock 20 0)) l' = Ok [w1; w2]
    /\ map w_time (windows r) = ["09:00-12:00"; "11:00-14:00"]
    /\ dw_start w1 = 9 /\ dw_end w1 = 12
    /\ dw_start w2 = 11 /\ dw_end w2 = 14
    /\ ~ before w1 w2.
Proof.
  rewrite analyze_day_weather_eq. do 4 eexists.
  split; [reflexivity|]. split; [rewrite find_dry_windows_enrich; reflexivity|].
  repeat split. unfold before. cbn. lia.
Qed.

(** C4, as the code has it.  Two lists with the same in-scope samples give
    the same temperature range, greatest wind, reasons and verdict, and the
    same dry windows: the windows of the two analyses are the texts of one
    list of dry windows, with the same temperatures and winds.  The note on
    rain in a window's text is computed from the rain flags of all samples
    of the day, so the windows are equal when the two lists also agree on
    rain before noon and rain in the afternoon. *)
Theorem same_in_scope_samples_same_analysis tz l1 l2 name sunset :
  filter (in_scope tz (cutoff_of sunset)) l1
  = filter (in_scope tz (cutoff_of sunset)) l2 ->
  exists l1' r1 l2' r2 dws,
    analyze_day_weather tz l1 name sunset = Ok (l1', r1)
    /\ analyze_day_weather tz l2 name sunset = Ok (l2', r2)
    /\ temp_range r1 = temp_range r2
    /\ max_wind r1 = max_wind r2
    /\ reasons r1 = reasons r2
    /\ playable r1 = playable r2
    /\ find_dry_windows tz (cutoff_of sunset) l1' = Ok dws
    /\ find_dry_windows tz (cutoff_of sunset) l2' = Ok dws
    /\ windows r1
       = map (describe_window (rain_between tz None (Some 12) l1)
                              (rain_between tz (Some 12) (Some 18) l1)) dws
    /\ windows r2
       = map (describe_window (rain_between tz None (Some 12) l2)
                              (rain_between tz (Some 12) (Some 18) l2)) dws
    /\ map w_temp (windows r1) = map w_temp (windows r2)
    /\ map w_wind (windows r1) = map w_wind (windows r2)
    /\ (rain_between tz None (Some 12) l1 = rain_between tz None (Some 12) l2 ->
        rain_between tz (Some 12) (Some 18) l1
        = rain_between tz (Some 12) (Some 18) l2 ->
        windows r1 = windows r2).
Proof.
  intros H. set (c := cutoff_of sunset) in *.
  assert (E : in_scope_sorted tz c l1 = in_scope_sorted tz c l2)
    by (rewrite !in_scope_sorted_filter; now rewrite H).
  rewrite !analyze_day_weather_eq.
  exists (map (enrich tz) l1), (analysis_of tz l1 sunset),
    (map (enrich tz) l2), (analysis_of tz l2 sunset),
    (collect tz None (in_scope_sorted tz c l1)).
  split; [reflexivity|]. split; [reflexivity|].
  unfold analysis_of. fold c. cbn [temp_range max_wind reasons playable windows].
  rewrite H, E, !length_map.
  repeat split; try apply find_dry_windows_enrich.
  - rewrite <- E. apply find_dry_windows_enrich.
  - rewrite !map_map. reflexivity.
  - rewrite !map_map. reflexivity.
  - intros -> ->. reflexivity.
Qed.

Lemma same_in_scope_samples_same_analysis_witness :
  exists l1' r1 l2' r2 dws,
    analyze_day_weather 0 [sample 9 12 3 0 "Clear"]
      "Saturday" (clock 15 40) = Ok (l1', r1)
    /\ analyze_day_weather 0
         [sample 9 12 3 0 "Clear"; sample 15 11 3 0.9 "Rain"]
         "Saturday" (clock 15 40) = Ok (l2', r2)
    /\ temp_range r1 = temp_range r2
    /\ max_wind r1 = max_wind r2
    /\ reasons r1 = reasons r2
    /\ playable r1 = playable r2
    /\ find_dry_windows 0 (cutoff_of (clock 15 40)) l1' = Ok dws
    /\ find_dry_windows 0 (cutoff_of (clock 15 40)) l2' = Ok dws
    /\ windows r1
       = map (describe_window
                (rain_between 0 None (Some 12) [sample 9 12 3 0 "Clear"])
                (rain_between 0 (Some 12) (Some 18)
                   [sample 9 12 3 0 "Clear"])) dws
    /\ windows r2
       = map (describe_window
                (rain_between 0 None (Some 12)
                   [sample 9 12 3 0 "Clear"; sample 15 11 3 0.9 "Rain"])
                (rain_between 0 (Some 12) (Some 18)
                   [sample 9 12 3 0 "Clear"; sample 15 11 3 0.9 "Rain"])) dws
    /\ map w_temp (windows r1) = map w_temp (windows r2)
    /\ map w_wind (windows r1) = map w_wind (windows r2)
    /\ (rain_between 0 None (Some 12) [sample 9 12 3 0 "Clear"]
        = rain_between 0 None (Some 12)
            [sample 9 12 3 0 "Clear"; sample 15 11 3 0.9 "Rain"] ->
        rain_between 0 (Some 12) (Some 18) [sample 9 12 3 0 "Clear"]
        = rain_between 0 (Some 12) (Some 18)
            [sample 9 12 3 0 "Clear"; sample 15 11 3 0.9 "Rain"] ->
        windows r1 = windows r2).
Proof.
  apply same_in_scope_samples_same_analysis. reflexivity.
Defined.

(** C4, as stated, fails: with the sunset at 15:40 a rainy sample at 15:00
    is out of scope, and adding it to a day whose one in-scope sample is dry
    at 09:00 changes the text of the window. *)
Lemma out_of_scope_rain_changes_window_text :
  filter (in_scope 0 (cutoff_of (clock 15 40))) [sample 9 12 3 0 "Clear"]
  = filter (in_scope 0 (cutoff_of (clock 15 40)))
      [sample 9 12 3 0 "Clear"; sample 15 11 3 0.9 "Rain"]
  /\ exists l1' r1 l2' r2,
       analyze_day_weather 0 [sample 9 12 3 0 "Clear"]
         "Saturday" (clock 15 40) = Ok (l1', r1)
       /\ analyze_day_weather 0
            [sample 9 12 3 0 "Clear"; sample 15 11 3 0.9 "Rain"]
            "Saturday" (clock 15 40) = Ok (l2', r2)
       /\ map w_time (windows r1) = ["09:00-12:00"]
       /\ map w_time (windows r2) = ["09:00-12:00 (before rain)"]
       /\ windows r1 <> windows r2.
Proof.
  split; [reflexivity|].
  rewrite !analyze_day_weather_eq. do 4 eexists.
  split; [reflexivity|]. split; [reflexivity|].
  split; [reflexivity|]. split; [reflexivity|].
  intros E. apply (f_equal (map w_time)) in E. discriminate E.
Qed.

(** C5, at a failing input: three in-scope samples of 7, 9 and 7 m/s
    (15.7, 20.1 and 15.7 mph) leave three wind reasons, one for each
    sample with its own wind, the first and the last the same string. *)
Lemma wind_reasons_one_per_sample :
  exists l' r,
    analyze_day_weather 0
      [sample 9 12 7 0 "Clear"; sample 12 13 9 0 "Clear";
       sample 15 12 7 0 "Clear"] "Saturday" (clock 20 0) = Ok (l', r)
    /\ reasons r
       = ["wind speeds up to 16mph"; "wind speeds up to 20mph";
          "wind speeds up to 16mph"]
    /\ format_0f (max_wind r) = "20".
Proof.
  rewrite analyze_day_weather_eq. do 2 eexists.
  split; [reflexivity|]. split; reflexivity.
Qed.

(** The reasons of the analysis in general: the reason of every in-scope
    sample above the threshold, in the order of the list. *)
Lemma reasons_of_analysis tz l name sunset :
  exists l' r,
    analyze_day_weather tz l name sunset = Ok (l', r)
    /\ reasons r
       = map wind_reason
           (filter windy (filter (in_scope tz (cutoff_of sunset)) l)).
Proof.
  rewrite analyze_day_weather_eq. do 2 eexists. split; [reflexivity|].
  unfold analysis_of. cbn [reasons]. now rewrite reasons_fold.
Qed.

(** C9, as the code has it.  The call rewrites every dict of its input list
    in place: each keeps the keys it was fetched with (dt, main.temp,
    wind.speed, pop, weather) and gains, or has overwritten, the keys hour,
    will_rain, rain_prob, wind_mph and temp; the list keeps its length and
    order. *)
Theorem input_samples_enriched tz l name sunset :
  exists l' r,
    analyze_day_weather tz l name sunset = Ok (l', r)
    /\ Forall2 (enriched tz) l l'.
Proof.
  rewrite analyze_day_weather_eq. do 2 eexists. split; [reflexivity|].
  induction l as [|f l IH]; cbn [map]; constructor; trivial.
  unfold enriched. repeat split.
Qed.

(** C9, as stated, fails: a dict as fetched has no key hour, and after the
    call it has. *)
Lemma input_sample_changed :
  exists l' r,
    analyze_day_weather 0 [sample 9 12 3 0 "Clear"] "Saturday" (clock 20 0)
    = Ok (l', r)
    /\ map fc_hour [sample 9 12 3 0 "Clear"] = [None]
    /\ map fc_hour l' = [Some 9]
    /\ l' <> [sample 9 12 3 0 "Clear"].
Proof.
  rewrite analyze_day_weather_eq. do 2 eexists.
  split; [reflexivity|]. split; [reflexivity|]. split; [reflexivity|].
  intros E. apply (f_equal (map fc_hour)) in E. discriminate E.
Qed.

(** The scenario of the specification: 10, 20 and 8 mph at 09:00, 12:00 and
    15:00 with the sunset at 20:00 give two windows around the wind spike,
    and the spike makes the day not playable. *)
Lemma spec_scenario_not_playable :
  exists l' r,
    analyze_day_weather 0
      [sample 9 12 4.47 0 "Clouds"; sample 12 14 8.94 0 "Clouds";
       sample 15 13 3.58 0 "Clear"] "Saturday" (clock 20 0) = Ok (l', r)
    /\ map w_time (windows r) = ["09:00-12:00"; "15:00-18:00"]
    /\ format_0f (max_wind r) = "20"
    /\ playable r = false.
Proof.
  destruct (playable_iff_window_and_day_wind 0
              [sample 9 12 4.47 0 "Clouds"; sample 12 14 8.94 0 "Clouds";
               sample 15 13 3.58 0 "Clear"] "Saturday" (clock 20 0))
    as (l' & r & E & _ & _ & _ & S).
  exists l', r. split; [exact E|].
  rewrite analyze_day_weather_eq in E. injection E as _ <-.
  split; [reflexivity|]. split; [reflexivity|].
  apply S. exists (sample 12 14 8.94 0 "Clouds").
  split; [right; now left|]. split; reflexivity.
Defined.

(* ================================================================== *)
(** * The booking tracker *)

Lemma min_by_In {A : Type} (key : A -> Z) l : forall x,
  In (min_by key x l) (x :: l).
Proof.
  induction l as [|y l IH]; intros x; cbn [min_by]; [now left|].
  destruct (IH (if key y <? key x then y else x)) as [H|H].
  - rewrite <- H. destruct (key y <? key x); [right|]; now left.
  - right. now right.
Qed.

(** The three booking messages of the specification give the bookings
    it names, a message that says stop clears the stored booking, and the
    hour of a booking follows the am/pm rules: with "pm" in the message an
    hour below 12 gains 12, with "am" in the message the hour 12 becomes 0,
    and with neither an hour below 9 gains 12. *)
Theorem booking_messages_parsed :
  (forall w, exists w',
      check_for_bookings (Some [text_update "Booked for sunday at 15:00"]) w
      = Ok w'
      /\ state_file w'
         = Some {| booking :=
                     Some {| bk_day := "sunday"; bk_time := "15:00" |} |})
  /\ (forall w, exists w',
        check_for_bookings (Some [text_update "booked for sat at 3pm"]) w
        = Ok w'
        /\ state_file w'
           = Some {| booking :=
                       Some {| bk_day := "saturday"; bk_time := "15:00" |} |})
  /\ (forall w, exists w',
        check_for_bookings (Some [text_update "booked for sunday at 3"]) w
        = Ok w'
        /\ state_file w'
           = Some {| booking :=
                       Some {| bk_day := "sunday"; bk_time := "15:00" |} |})
  /\ (forall text later w,
        contains "stop" (lower text) = true ->
        exists w',
          check_for_bookings (Some (text_update text :: later)) w = Ok w'
          /\ state_file w' = Some {| booking := None |})
  /\ (forall message group1 group2 hour,
        contains "booked" message = true ->
        time_search message = Some (group1, group2) ->
        py_int group1 = Ok hour ->
        exists day,
          parse_booking message
          = Ok (Some {| bk_day := day;
                        bk_time := fmt_02d (meridiem_hour message hour)
                                   ++ ":" ++ get_default group2 "00" |}))
  /\ (forall message hour,
        (contains "pm" message = true -> hour < 12 ->
         meridiem_hour message hour = hour + 12)
        /\ (contains "am" message = true -> hour = 12 ->
            meridiem_hour message hour = 0)
        /\ (contains "am" message = false -> contains "pm" message = false ->
            hour < 9 -> meridiem_hour message hour = hour + 12)).
Proof.
  repeat split.
  - intros w. eexists. split; reflexivity.
  - intros w. eexists. split; reflexivity.
  - intros w. eexists. split; reflexivity.
  - intros text later w H. eexists.
    unfold check_for_bookings. cbn. rewrite H. split; reflexivity.
  - intros message group1 group2 hour B T I. eexists.
    unfold parse_booking. rewrite B, T, I. reflexivity.
  - intros P H. unfold meridiem_hour. rewrite P.
    apply Z.ltb_lt in H. now rewrite H.
  - intros A ->. unfold meridiem_hour. rewrite A.
    now rewrite andb_false_r.
  - intros A P H. unfold meridiem_hour. rewrite A, P.
    apply Z.ltb_lt in H. now rewrite H.
Qed.

Lemma booking_messages_parsed_witness :
  meridiem_hour "booked for sat at 3pm" 3 = 15
  /\ meridiem_hour "booked for sunday at 12am" 12 = 0
  /\ meridiem_hour "booked for sunday at 3" 3 = 15.
Proof.
  destruct booking_messages_parsed as (_ & _ & _ & _ & _ & H).
  split; [|split].
  - apply (proj1 (H "booked for sat at 3pm" 3)); [reflexivity | lia].
  - apply (proj1 (proj2 (H "booked for sunday at 12am" 12))); reflexivity.
  - apply (proj2 (proj2 (H "booked for sunday at 3" 3)));
      [reflexivity | reflexivity | lia].
Defined.



(** The other ends of a reminder run with a booking: without the key list
    in the forecast response, and without a forecast near the booked time,
    one message is sent and the state file is left as it is, booking
    included. *)
Lemma reminder_run_keeps_booking tz weather_data now w b :
  booking (load_state w) = Some b ->
  wd_list weather_data = None
  \/ (exists forecasts target_hour,
        wd_list weather_data = Some forecasts
        /\ py_int (before_colon (bk_time b)) = Ok target_hour
        /\ relevant_forecasts tz (target_day_of (bk_day b) now) target_hour
             forecasts = []) ->
  exists w' message,
    friday_reminder tz weather_data now w = Ok w'
    /\ sent w' = app (sent w) [message]
    /\ state_file w' = state_file w.
Proof.
  intros B H. unfold friday_reminder, load_state in *. cbn.
  destruct (state_file w) as [[bk]|] eqn:SF; cbn in *;
    [subst bk | discriminate].
  destruct H as [L|(forecasts & target_hour & L & I & R)]; rewrite L.
  - do 2 eexists. split; [reflexivity|]. cbn. rewrite SF. split; reflexivity.
  - rewrite I. cbn. rewrite R. do 2 eexists.
    split; [reflexivity|]. cbn. rewrite SF. split; reflexivity.
Qed.

Lemma reminder_run_keeps_booking_witness :
  exists w' message,
    friday_reminder 0 {| wd_list := Some [sample 60 12 3 0.2 "Clouds"] |}
      (clock 24 0)
      {| state_file :=
           Some {| booking :=
                     Some {| bk_day := "saturday"; bk_time := "15:00" |} |};
         sent := []; printed := [] |} = Ok w'
    /\ sent w' = [message]
    /\ state_file w'
       = Some {| booking :=
                   Some {| bk_day := "saturday"; bk_time := "15:00" |} |}.
Proof.
  apply (reminder_run_keeps_booking 0
           {| wd_list := Some [sample 60 12 3 0.2 "Clouds"] |} (clock 24 0)
           {| state_file :=
                Some {| booking :=
                          Some {| bk_day := "saturday";
                                  bk_time := "15:00" |} |};
              sent := []; printed := [] |}
           {| bk_day := "saturday"; bk_time := "15:00" |}).
  - reflexivity.
  - right. exists [sample 60 12 3 0.2 "Clouds"], 15. repeat split.
Defined.

(** The am/pm rules test the whole lower-cased message for the letters
    "am" and "pm": a message without a time of day marker whose words
    hold "am" (here "same") keeps its small hour, and the day is Saturday
    as soon as "sat" stands anywhere. *)
Lemma meridiem_is_a_substring_test :
  parse_booking "booked for sunday at 3, same court"
  = Ok (Some {| bk_day := "sunday"; bk_time := "03:00" |})
  /\ parse_booking "booked for sunday at 3"
     = Ok (Some {| bk_day := "sunday"; bk_time := "15:00" |})
  /\ parse_booking "booked for sunday at 7, not saturday"
     = Ok (Some {| bk_day := "saturday"; bk_time := "19:00" |}).
Proof.
  repeat split.
Qed.

(* ================================================================== *)
(** * More on the analysis of a day *)

Lemma filter_all {A : Type} (p : A -> bool) l :
  Forall (fun x => p x = true) l -> filter p l = l.
Proof.
  induction 1 as [|x l H F IH]; cbn; [reflexivity | now rewrite H, IH].
Qed.

(** The runs hold the dry samples, all of them, in their order. *)
Lemma dry_runs_concat fs runs :
  dry_runs fs runs ->
  List.concat (map (fun run => fst run :: snd run) runs) = filter is_dry fs.
Proof.
  induction 1 as [|f fs runs D R IH|f run D F|f run g fs runs D F Dg R IH];
    cbn [map List.concat filter fst snd].
  - reflexivity.
  - now rewrite D.
  - rewrite D, (filter_all _ _ F), app_nil_r. reflexivity.
  - rewrite D, filter_app, (filter_all _ _ F). cbn [filter]. rewrite Dg, IH.
    reflexivity.
Qed.

Lemma in_scope_hours tz c f :
  in_scope tz c f = true ->
  PLAYING_HOURS_START <= hour_of tz f < PLAYING_HOURS_END
  /\ fromtimestamp tz (fc_dt f) <= c.
Proof.
  unfold in_scope, out_of_scope. fold (hour_of tz f).
  rewrite negb_true_iff, !orb_false_iff, Z.ltb_ge, Z.leb_gt, Z.ltb_ge.
  lia.
Qed.

(** The windows are built from the dry in-scope samples and from nothing
    else: the runs behind the windows, one after the other, are the dry
    in-scope samples in chronological order, each sample once. *)
Theorem windows_cover_dry_in_scope_samples tz l name sunset :
  exists l' r runs,
    analyze_day_weather tz l name sunset = Ok (l', r)
    /\ find_dry_windows tz (cutoff_of sunset) l'
       = Ok (map (window_of_run tz) runs)
    /\ windows r
       = map (describe_window (rain_between tz None (Some 12) l)
                              (rain_between tz (Some 12) (Some 18) l))
             (map (window_of_run tz) runs)
    /\ List.concat (map (fun run => fst run :: snd run) runs)
       = filter is_dry (in_scope_sorted tz (cutoff_of sunset) l).
Proof.
  destruct (proj1 (collect_runs tz (in_scope_sorted tz (cutoff_of sunset) l)))
    as (runs & R & E).
  rewrite analyze_day_weather_eq.
  exists (map (enrich tz) l), (analysis_of tz l sunset), runs.
  split; [reflexivity|].
  rewrite find_dry_windows_enrich, E. split; [reflexivity|].
  unfold analysis_of. cbn [windows]. rewrite E. split; [reflexivity|].
  apply dry_runs_concat, R.
Qed.

(** Every window starts at the hour of an in-scope sample, so from 9 to 21,
    and ends three hours after the hour of an in-scope sample, so from 12 to
    24: a window can run past the end of the playing hours and past the
    sunset cutoff. *)
Theorem window_hours_within_bounds tz l name sunset :
  exists l' r dws,
    analyze_day_weather tz l name sunset = Ok (l', r)
    /\ find_dry_windows tz (cutoff_of sunset) l' = Ok dws
    /\ windows r
       = map (describe_window (rain_between tz None (Some 12) l)
                              (rain_between tz (Some 12) (Some 18) l)) dws
    /\ Forall (fun w => PLAYING_HOURS_START <= dw_start w < PLAYING_HOURS_END
                        /\ PLAYING_HOURS_START + 3 <= dw_end w
                           < PLAYING_HOURS_END + 3) dws.
Proof.
  set (c := cutoff_of sunset).
  destruct (proj1 (collect_runs tz (in_scope_sorted tz c l)))
    as (runs & R & E).
  rewrite analyze_day_weather_eq.
  exists (map (enrich tz) l), (analysis_of tz l sunset),
    (collect tz None (in_scope_sorted tz c l)).
  split; [reflexivity|]. split; [apply find_dry_windows_enrich|].
  split; [reflexivity|].
  rewrite E. apply Forall_forall. intros w Hw.
  apply in_map_iff in Hw. destruct Hw as (run & <- & Hrun).
  assert (S : forall f, In f (fst run :: snd run) -> in_scope tz c f = true).
  { intros f Hf.
    assert (Hc : In f (List.concat (map (fun run => fst run :: snd run) runs))).
    { apply in_concat. exists (fst run :: snd run). split; trivial.
      apply in_map_iff. now exists run. }
    rewrite (dry_runs_concat _ _ R) in Hc. apply filter_In in Hc.
    destruct Hc as [Hc _]. now apply in_scope_sorted_In in Hc. }
  destruct (in_scope_hours tz c _ (S (fst run) (or_introl eq_refl))) as [H1 _].
  destruct (in_scope_hours tz c _ (S _ (last_In (snd run) (fst run))))
    as [H2 _].
  cbn [window_of_run dw_start dw_end]. lia.
Qed.

(* ------------------------------------------------------------------ *)
(** ** The aggregates as bounds *)

Lemma ltb_leb x y : (x <? y)%float = true -> (x <=? y)%float = true.
Proof.
  rewrite ltb_spec, leb_spec, SFltb_key, SFleb_key. tauto.
Qed.

Lemma leb_trans x y z :
  (x <=? y)%float = true -> (y <=? z)%float = true -> (x <=? z)%float = true.
Proof.
  rewrite !leb_spec, !SFleb_key. unfold lex_lt.
  intros (? & ? & [?|E1]) (? & ? & [?|E2]); repeat split; trivial.
  - left. lia.
  - left. rewrite <- E2. assumption.
  - left. rewrite E1. assumption.
  - right. congruence.
Qed.

Lemma pymax_upper a b :
  is_number a ->
  (a <=? pymax a b)%float = true
  /\ (is_number b -> (b <=? pymax a b)%float = true).
Proof.
  intros Ha. unfold pymax. destruct (a <? b)%float eqn:E.
  - split; [now apply ltb_leb | trivial].
  - split; [exact Ha | intros Hb; now apply ltb_false_leb].
Qed.

Lemma pymin_lower a b :
  is_number a ->
  (pymin a b <=? a)%float = true
  /\ (is_number b -> (pymin a b <=? b)%float = true).
Proof.
  intros Ha. unfold pymin. destruct (b <? a)%float eqn:E.
  - split; [now apply ltb_leb | trivial].
  - split; [exact Ha | intros Hb; now apply ltb_false_leb].
Qed.

Lemma pymin_is_number a b : is_number a -> is_number (pymin a b).
Proof.
  intros H. unfold pymin. destruct (b <? a)%float eqn:E; trivial.
  eapply ltb_is_number_l; eassumption.
Qed.

Lemma fold_pymax_upper ws : forall a,
  is_number a ->
  (a <=? fold_left pymax ws a)%float = true
  /\ (forall w, In w ws -> is_number w ->
                (w <=? fold_left pymax ws a)%float = true)
  /\ (fold_left pymax ws a = a \/ In (fold_left pymax ws a) ws).
Proof.
  induction ws as [|w ws IH]; intros a Ha; cbn [fold_left].
  - repeat split; [exact Ha | intros w [] | now left].
  - destruct (IH (pymax a w) (pymax_is_number a w Ha)) as (I1 & I2 & I3).
    destruct (pymax_upper a w Ha) as [U1 U2].
    repeat split.
    + eapply leb_trans; eassumption.
    + intros w' [<-|Hw'] Nw'; [|now apply I2].
      eapply leb_trans; [apply U2, Nw' | exact I1].
    + destruct I3 as [->|I3]; [|right; now right].
      unfold pymax. destruct (a <? w)%float; [right|]; now left.
Qed.

Lemma fold_pymin_lower ws : forall a,
  is_number a ->
  (fold_left pymin ws a <=? a)%float = true
  /\ (forall w, In w ws -> is_number w ->
                (fold_left pymin ws a <=? w)%float = true)
  /\ (fold_left pymin ws a = a \/ In (fold_left pymin ws a) ws).
Proof.
  induction ws as [|w ws IH]; intros a Ha; cbn [fold_left].
  - repeat split; [exact Ha | intros w [] | now left].
  - destruct (IH (pymin a w) (pymin_is_number a w Ha)) as (I1 & I2 & I3).
    destruct (pymin_lower a w Ha) as [U1 U2].
    repeat split.
    + eapply leb_trans; eassumption.
    + intros w' [<-|Hw'] Nw'; [|now apply I2].
      eapply leb_trans; [exact I1 | apply U2, Nw'].
    + destruct I3 as [->|I3]; [|right; now right].
      unfold pymin. destruct (w <? a)%float; [right|]; now left.
Qed.

Lemma temp_range_split ts : forall lo hi,
  fold_left (fun tr t => (pymin (fst tr) t, pymax (snd tr) t)) ts (lo, hi)
  = (fold_left pymin ts lo, fold_left pymax ts hi).
Proof.
  induction ts as [|t ts IH]; intros lo hi; cbn; [reflexivity | apply IH].
Qed.

(** The aggregates bound the in-scope samples: every in-scope temperature
    that is a number lies within [temp_range], every in-scope wind that is a
    number is at most [max_wind], and each aggregate is its initial value
    (999, -999, 0) or the value of an in-scope sample. *)
Theorem aggregates_bound_in_scope_samples tz l name sunset :
  exists l' r,
    analyze_day_weather tz l name sunset = Ok (l', r)
    /\ (forall f, In f l -> in_scope tz (cutoff_of sunset) f = true ->
          (is_number (fc_main_temp f) ->
           (fst (temp_range r) <=? fc_main_temp f)%float = true
           /\ (fc_main_temp f <=? snd (temp_range r))%float = true)
          /\ (is_number (wind_mph_of f) ->
              (wind_mph_of f <=? max_wind r)%float = true))
    /\ (fst (temp_range r) <=? 999)%float = true
    /\ ((-999) <=? snd (temp_range r))%float = true
    /\ (0 <=? max_wind r)%float = true
    /\ (fst (temp_range r) = 999%float
        \/ exists f, In f l /\ in_scope tz (cutoff_of sunset) f = true
                     /\ fst (temp_range r) = fc_main_temp f)
    /\ (snd (temp_range r) = (-999)%float
        \/ exists f, In f l /\ in_scope tz (cutoff_of sunset) f = true
                     /\ snd (temp_range r) = fc_main_temp f)
    /\ (max_wind r = 0%float
        \/ exists f, In f l /\ in_scope tz (cutoff_of sunset) f = true
                     /\ max_wind r = wind_mph_of f).
Proof.
  rewrite analyze_day_weather_eq. do 2 eexists. split; [reflexivity|].
  unfold analysis_of. cbn [temp_range max_wind].
  rewrite max_wind_fold, temp_range_fold. cbn [initial_results temp_range max_wind].
  rewrite temp_range_split. cbn [fst snd].
  set (fs := filter (in_scope tz (cutoff_of sunset)) l).
  destruct (fold_pymin_lower (map fc_main_temp fs) 999%float eq_refl)
    as (L1 & L2 & L3).
  destruct (fold_pymax_upper (map fc_main_temp fs) (-999)%float eq_refl)
    as (H1 & H2 & H3).
  destruct (fold_pymax_upper (map wind_mph_of fs) 0%float eq_refl)
    as (W1 & W2 & W3).
  assert (M : forall (g : Forecast -> float) x,
             In x (map g fs) ->
             exists f, In f l /\ in_scope tz (cutoff_of sunset) f = true
                       /\ x = g f).
  { intros g x Hx. apply in_map_iff in Hx. destruct Hx as (f & <- & Hf).
    apply filter_In in Hf. exists f. tauto. }
  repeat split; trivial.
  - apply L2; trivial. apply in_map, filter_In. now split.
  - apply H2; trivial. apply in_map, filter_In. now split.
  - intros N. apply W2; trivial. apply in_map, filter_In. now split.
  - destruct L3 as [L3|L3]; [now left | right; now apply M].
  - destruct H3 as [H3|H3]; [now left | right; now apply M].
  - destruct W3 as [W3|W3]; [now left | right; now apply M].
Qed.

(* ------------------------------------------------------------------ *)
(** ** The order of the input list *)

Lemma insert_by_dt_perm x l : Permutation (insert_by_dt x l) (x :: l).
Proof.
  induction l as [|y l IH]; cbn; [reflexivity|].
  destruct (fc_dt x <=? fc_dt y); [reflexivity|].
  rewrite IH. apply perm_swap.
Qed.

Lemma sorted_by_dt_perm l : Permutation (sorted_by_dt l) l.
Proof.
  unfold sorted_by_dt. induction l as [|x l IH]; cbn; [reflexivity|].
  rewrite insert_by_dt_perm. now constructor.
Qed.

Lemma filter_perm {A : Type} (p : A -> bool) l1 l2 :
  Permutation l1 l2 -> Permutation (filter p l1) (filter p l2).
Proof.
  induction 1 as [|x l1 l2 P IH|x y l|l1 l2 l3 P1 IH1 P2 IH2]; cbn.
  - reflexivity.
  - destruct (p x); [now constructor | exact IH].
  - destruct (p x), (p y); try reflexivity. apply perm_swap.
  - now transitivity (filter p l2).
Qed.

Lemma bool_eq_iff (a b : bool) : (a = true <-> b = true) -> a = b.
Proof.
  destruct a, b; intros [H1 H2]; trivial.
  - symmetry. now apply H1.
  - now apply H2.
Qed.

Lemma existsb_perm {A : Type} (p : A -> bool) l1 l2 :
  Permutation l1 l2 -> existsb p l1 = existsb p l2.
Proof.
  intros P. apply bool_eq_iff. rewrite !existsb_exists.
  split; intros (x & Hx & Px); exists x; split; trivial.
  - eapply Permutation_in; eassumption.
  - eapply Permutation_in; [symmetry|]; eassumption.
Qed.

Lemma same_dt_same_sample l a b :
  NoDup (map fc_dt l) -> In a l -> In b l -> fc_dt a = fc_dt b -> a = b.
Proof.
  induction l as [|x l IH]; cbn; intros N Ha Hb E; [destruct Ha|].
  apply NoDup_cons_iff in N. destruct N as [N1 N2].
  destruct Ha as [->|Ha], Hb as [->|Hb]; trivial.
  - exfalso. apply N1. rewrite E. now apply in_map.
  - exfalso. apply N1. rewrite <- E. now apply in_map.
  - now apply IH.
Qed.

(** Two chronological lists of the same samples with distinct timestamps
    are one list. *)
Lemma sorted_unique l1 : forall l2,
  Permutation l1 l2 ->
  StronglySorted dt_le l1 -> StronglySorted dt_le l2 ->
  NoDup (map fc_dt l1) -> l1 = l2.
Proof.
  induction l1 as [|x l1 IH]; intros l2 P S1 S2 N.
  - apply Permutation_nil in P. now subst.
  - destruct l2 as [|y l2].
    { symmetry in P. apply Permutation_nil in P. discriminate. }
    assert (Hy : In y (x :: l1)).
    { eapply Permutation_in; [symmetry; exact P | now left]. }
    assert (Hx : In x (y :: l2)).
    { eapply Permutation_in; [exact P | now left]. }
    pose proof (StronglySorted_inv S1) as [S1' F1].
    pose proof (StronglySorted_inv S2) as [S2' F2].
    rewrite Forall_forall in F1, F2.
    assert (E : x = y).
    { apply (same_dt_same_sample (x :: l1)); trivial; [now left|].
      assert (fc_dt x <= fc_dt y)
        by (destruct Hy as [<-|Hy]; [lia | now apply F1]).
      assert (fc_dt y <= fc_dt x)
        by (destruct Hx as [<-|Hx]; [lia | now apply F2]).
      lia. }
    subst y. f_equal. apply IH; trivial.
    + eapply Permutation_cons_inv; exact P.
    + cbn in N. now apply NoDup_cons_iff in N.
Qed.

(** Listing the samples in another order changes neither the windows nor the
    verdict, as long as no two in-scope samples have the same timestamp; the
    reasons are the same strings, in the order of the list. *)
Theorem sample_order_is_irrelevant tz l1 l2 name sunset :
  Permutation l1 l2 ->
  NoDup (map fc_dt (filter (in_scope tz (cutoff_of sunset)) l1)) ->
  exists l1' r1 l2' r2,
    analyze_day_weather tz l1 name sunset = Ok (l1', r1)
    /\ analyze_day_weather tz l2 name sunset = Ok (l2', r2)
    /\ windows r1 = windows r2
    /\ playable r1 = playable r2
    /\ Permutation (reasons r1) (reasons r2).
Proof.
  intros P N. set (c := cutoff_of sunset) in *.
  assert (PF : Permutation (filter (in_scope tz c) l1)
                           (filter (in_scope tz c) l2))
    by now apply filter_perm.
  assert (E : in_scope_sorted tz c l1 = in_scope_sorted tz c l2).
  { rewrite !in_scope_sorted_filter. apply sorted_unique.
    - now rewrite !sorted_by_dt_perm.
    - apply sorted_by_dt_sorted.
    - apply sorted_by_dt_sorted.
    - eapply Permutation_NoDup; [|exact N].
      apply Permutation_map. symmetry. apply sorted_by_dt_perm. }
  rewrite !analyze_day_weather_eq.
  exists (map (enrich tz) l1), (analysis_of tz l1 sunset),
    (map (enrich tz) l2), (analysis_of tz l2 sunset).
  split; [reflexivity|]. split; [reflexivity|].
  unfold analysis_of. fold c. cbn [windows playable reasons].
  rewrite E. unfold rain_between. rewrite !(existsb_perm _ l1 l2 P).
  split; [reflexivity|]. split.
  - f_equal. rewrite !max_wind_fold. cbn [max_wind initial_results].
    apply bool_eq_iff. rewrite !max_wind_within_iff.
    split; intros H f Hf; apply H.
    + eapply Permutation_in; [symmetry|]; eassumption.
    + eapply Permutation_in; eassumption.
  - rewrite !reasons_fold by reflexivity. cbn [reasons initial_results app].
    apply Permutation_map, filter_perm, PF.
Qed.

Lemma sample_order_is_irrelevant_witness :
  exists l1' r1 l2' r2,
    analyze_day_weather 0
      [sample 9 12 3 0 "Clear"; sample 12 14 8 0 "Clear";
       sample 15 13 3 0 "Clear"] "Saturday" (clock 20 0) = Ok (l1', r1)
    /\ analyze_day_weather 0
         [sample 15 13 3 0 "Clear"; sample 9 12 3 0 "Clear";
          sample 12 14 8 0 "Clear"] "Saturday" (clock 20 0) = Ok (l2', r2)
    /\ windows r1 = windows r2
    /\ playable r1 = playable r2
    /\ Permutation (reasons r1) (reasons r2).
Proof.
  apply sample_order_is_irrelevant.
  - apply Permutation_sym, (Permutation_cons_append
      [sample 9 12 3 0 "Clear"; sample 12 14 8 0 "Clear"]
      (sample 15 13 3 0 "Clear")).
  - cbn. repeat constructor; cbn; intuition discriminate.
Defined.

(* ------------------------------------------------------------------ *)
(** ** Analysing a list again *)

Lemma filter_map_comm {A B : Type} (p : B -> bool) (q : A -> bool)
  (g : A -> B) l :
  (forall x, p (g x) = q x) -> filter p (map g l) = map g (filter q l).
Proof.
  intros H. induction l as [|x l IH]; cbn; [reflexivity|].
  rewrite H. destruct (q x); cbn; now rewrite IH.
Qed.

Lemma last_map {A B : Type} (g : A -> B) l : forall d,
  last (map g l) (g d) = g (last l d).
Proof.
  induction l as [|x l IH]; intros d; [reflexivity|].
  cbn [map]. rewrite !last_cons. apply IH.
Qed.

Section Again.

Variable tz : Z.

Lemma enrich_idempotent f : enrich tz (enrich tz f) = enrich tz f.
Proof. reflexivity. Qed.

Lemma fold_stats_enrich fs : forall r,
  fold_left stats_step (map (enrich tz) fs) r = fold_left stats_step fs r.
Proof.
  induction fs as [|f fs IH]; intros r; cbn [map fold_left]; [reflexivity|].
  rewrite IH. reflexivity.
Qed.

Lemma rain_between_enrich lo hi l :
  rain_between tz lo hi (map (enrich tz) l) = rain_between tz lo hi l.
Proof.
  unfold rain_between. induction l as [|f l IH]; cbn [map existsb];
    [reflexivity|].
  rewrite IH. reflexivity.
Qed.

Lemma in_scope_sorted_enrich c l :
  in_scope_sorted tz c (map (enrich tz) l)
  = map (enrich tz) (in_scope_sorted tz c l).
Proof.
  unfold in_scope_sorted. rewrite sorted_by_dt_enrich.
  apply filter_map_comm. reflexivity.
Qed.

Lemma collect_enrich fs : forall cur,
  collect tz
    (option_map (fun run => (enrich tz (fst run), map (enrich tz) (snd run)))
                cur)
    (map (enrich tz) fs)
  = collect tz cur fs.
Proof.
  induction fs as [|f fs IH]; intros cur; cbn [map collect].
  - destruct cur as [[f0 pre]|]; cbn; [|reflexivity].
    unfold window_of_run. cbn [fst snd]. rewrite last_map. reflexivity.
  - change (is_dry (enrich tz f)) with (is_dry f).
    destruct (is_dry f); destruct cur as [[f0 pre]|]; cbn [option_map fst snd].
    + rewrite <- (IH (Some (f0, app pre [f]))). cbn [option_map fst snd].
      now rewrite map_app.
    + apply (IH (Some (f, []))).
    + pose proof (IH None) as H. cbn [option_map] in H. rewrite H. f_equal.
      unfold window_of_run. cbn [fst snd]. rewrite last_map. reflexivity.
    + apply (IH None).
Qed.

Lemma analysis_of_enrich l sunset :
  analysis_of tz (map (enrich tz) l) sunset = analysis_of tz l sunset.
Proof.
  unfold analysis_of.
  rewrite (filter_map_comm _ (in_scope tz (cutoff_of sunset)))
    by reflexivity.
  rewrite fold_stats_enrich, !rain_between_enrich, in_scope_sorted_enrich.
  pose proof (collect_enrich (in_scope_sorted tz (cutoff_of sunset) l) None)
    as H.
  cbn [option_map] in H. rewrite H. reflexivity.
Qed.

End Again.

(** The analysis reads nothing but the keys as fetched: the five keys a call
    has written are written again with the same values, so that analysing
    the list a call has left gives the same results and leaves the list as
    it is. *)
Theorem analysing_again_changes_nothing tz l name sunset :
  exists l' r,
    analyze_day_weather tz l name sunset = Ok (l', r)
    /\ analyze_day_weather tz l' name sunset = Ok (l', r).
Proof.
  rewrite analyze_day_weather_eq. do 2 eexists. split; [reflexivity|].
  rewrite analyze_day_weather_eq, analysis_of_enrich, map_map.
  rewrite (map_ext _ _ (enrich_idempotent tz)). reflexivity.
Qed.

(* ================================================================== *)
(** * More on the booking tracker *)

Lemma is_digit_cases c :
  is_digit c = true ->
  In c ["0"; "1"; "2"; "3"; "4"; "5"; "6"; "7"; "8"; "9"]%char.
Proof.
  destruct c as [[] [] [] [] [] [] [] []]; cbn; intros H;
    try discriminate H; tauto.
Qed.

Lemma py_int_one_digit a :
  is_digit a = true ->
  exists n, py_int (String a "") = Ok n /\ 0 <= n <= 9.
Proof.
  intros Ha. apply is_digit_cases in Ha.
  repeat (destruct Ha as [<-|Ha]; [eexists; split; [cbv; reflexivity | lia]|]).
  destruct Ha.
Qed.

Lemma py_int_two_digits a b :
  is_digit a = true -> is_digit b = true ->
  exists n, py_int (String a (String b "")) = Ok n /\ 0 <= n <= 99.
Proof.
  intros Ha Hb. apply is_digit_cases in Ha. apply is_digit_cases in Hb.
  repeat (destruct Ha as [<-|Ha];
          [repeat (destruct Hb as [<-|Hb];
                   [eexists; split; [cbv; reflexivity | lia]|]);
           destruct Hb|]).
  destruct Ha.
Qed.

(** What the time pattern can capture: one or two digits, then nothing or
    two characters. *)
Lemma time_search_captures s : forall group1 group2,
  time_search s = Some (group1, group2) ->
  (exists n, py_int group1 = Ok n /\ 0 <= n <= 99)
  /\ String.length (get_default group2 "00") = 2%nat.
Proof.
  induction s as [|c r IH]; intros group1 group2; cbn [time_search];
    [discriminate|].
  destruct (is_digit c) eqn:Dc; [|apply IH].
  assert (G2 : forall rest g,
    match rest with
    | String d1 (String d2 _) =>
        if is_digit d1 && is_digit d2
        then Some (String d1 (String d2 EmptyString)) else None
    | _ => None
    end = g -> String.length (get_default g "00") = 2%nat).
  { intros rest g <-. destruct rest as [|d1 [|d2 rest']]; trivial.
    destruct (is_digit d1 && is_digit d2); reflexivity. }
  destruct r as [|c2 r2].
  - intros E. injection E as <- <-. split; [|reflexivity].
    destruct (py_int_one_digit c Dc) as (n & E & B). exists n. split; [exact E | lia].
  - destruct (is_digit c2) eqn:Dc2; intros E; injection E as <- E2.
    + split; [now apply py_int_two_digits | eapply G2, E2].
    + split; [|eapply G2, E2].
      destruct (py_int_one_digit c Dc) as (n & E & B).
      exists n. split; [exact E | lia].
Qed.

Lemma meridiem_hour_range message hour :
  0 <= hour <= 99 -> 0 <= meridiem_hour message hour <= 99.
Proof.
  intros H. unfold meridiem_hour.
  destruct (contains "pm" message && (hour <? 12)) eqn:E1.
  - apply andb_true_iff in E1. destruct E1 as [_ E1].
    apply Z.ltb_lt in E1. lia.
  - destruct (contains "am" message && (hour =? 12)); [lia|].
    destruct ((hour <? 9) && _ && _) eqn:E3; [|lia].
    apply andb_true_iff in E3. destruct E3 as [E3 _].
    apply andb_true_iff in E3. destruct E3 as [E3 _].
    apply Z.ltb_lt in E3. lia.
Qed.

Lemma before_colon_app s rest :
  before_colon s = s -> before_colon (s ++ ":" ++ rest) = s.
Proof.
  induction s as [|c s IH]; intros E; [reflexivity|].
  cbn [append before_colon] in *.
  destruct (c =? ":")%char; [discriminate|].
  injection E as E. f_equal. apply IH, E.
Qed.

Lemma two_digit_hours_read_back :
  forallb (fun n =>
             let h := Z.of_nat n in
             (before_colon (fmt_02d h) =? fmt_02d h)%string
             && match py_int (fmt_02d h) with
                | Ok h' => h' =? h
                | Raise _ => false
                end)
          (seq 0 100) = true.
Proof. vm_compute. reflexivity. Qed.

(** The hour a booking is stored with reads back as the same number. *)
Lemma stored_hour_reads_back hour minute :
  0 <= hour <= 99 ->
  py_int (before_colon (fmt_02d hour ++ ":" ++ minute)) = Ok hour.
Proof.
  intros H.
  pose proof (proj1 (forallb_forall _ _) two_digit_hours_read_back
                (Z.to_nat hour)) as C.
  cbv beta zeta in C. rewrite Z2Nat.id in C by lia.
  assert (I : In (Z.to_nat hour) (seq 0 100)) by (apply in_seq; lia).
  apply C in I. apply andb_true_iff in I. destruct I as [I1 I2].
  apply String.eqb_eq in I1. rewrite before_colon_app by exact I1.
  destruct (py_int (fmt_02d hour)) as [h'|]; [|discriminate].
  apply Z.eqb_eq in I2. now subst.
Qed.

Lemma parse_booking_cases message :
  parse_booking message = Ok None
  \/ exists day hour minute,
       (day = "saturday" \/ day = "sunday")
       /\ 0 <= hour <= 99
       /\ String.length minute = 2%nat
       /\ parse_booking message
          = Ok (Some {| bk_day := day;
                        bk_time := fmt_02d hour ++ ":" ++ minute |}).
Proof.
  unfold parse_booking.
  destruct (contains "booked" message); [|now left].
  destruct (time_search message) as [[group1 group2]|] eqn:T; [|now left].
  destruct (time_search_captures _ _ _ T) as ((n & E & B) & L).
  right. rewrite E. cbn [bind].
  eexists _, (meridiem_hour message n), (get_default group2 "00").
  split; [|split; [now apply meridiem_hour_range | split; [exact L|reflexivity]]].
  destruct (_ || _); [now left | now right].
Qed.

(** An ASCII message never makes the parser fail, and a booking it yields
    is well formed: the day is saturday or sunday, the time is an hour from
    00 to 99 (no check against the 24 hours of a day), a colon and two
    characters, and the hour of it reads back with
    [int(time.split(':')[0])]. *)
Theorem parsed_booking_is_well_formed message :
  is_ascii message = true ->
  exists parsed,
    parse_booking message = Ok parsed
    /\ forall b, parsed = Some b ->
         (bk_day b = "saturday" \/ bk_day b = "sunday")
         /\ exists hour minute,
              0 <= hour <= 99
              /\ String.length minute = 2%nat
              /\ bk_time b = fmt_02d hour ++ ":" ++ minute
              /\ py_int (before_colon (bk_time b)) = Ok hour.
Proof.
  intros _.
  destruct (parse_booking_cases message)
    as [E|(day & hour & minute & D & H & L & E)]; rewrite E; eexists;
    (split; [reflexivity|]); intros b Hb; [discriminate|].
  injection Hb as <-. cbn [bk_day bk_time]. split; [exact D|].
  exists hour, minute. repeat split; try lia; trivial.
  now apply stored_hour_reads_back.
Qed.

Lemma parsed_booking_is_well_formed_witness :
  exists parsed,
    parse_booking "booked for sat at 7:45pm" = Ok parsed
    /\ forall b, parsed = Some b ->
         (bk_day b = "saturday" \/ bk_day b = "sunday")
         /\ exists hour minute,
              0 <= hour <= 99
              /\ String.length minute = 2%nat
              /\ bk_time b = fmt_02d hour ++ ":" ++ minute
              /\ py_int (before_colon (bk_time b)) = Ok hour.
Proof.
  apply parsed_booking_is_well_formed. reflexivity.
Defined.

(** A booking written by the booking check never makes the reminder run
    fail: whatever the forecast response and the time of the run, the run
    ends without an exception. *)
Theorem reminder_accepts_parsed_bookings message b tz weather_data now w :
  parse_booking message = Ok (Some b) ->
  booking (load_state w) = Some b ->
  exists w', friday_reminder tz weather_data now w = Ok w'.
Proof.
  intros P B.
  destruct (parse_booking_cases message)
    as [E|(day & hour & minute & D & H & L & E)]; rewrite E in P;
    [discriminate|].
  injection P as Eb.
  assert (I : py_int (before_colon (bk_time b)) = Ok hour)
    by (rewrite <- Eb; apply stored_hour_reads_back, H).
  clear Eb E. destruct b as [bday time]. cbn [bk_time] in I.
  unfold friday_reminder, load_state in *. cbn.
  destruct (state_file w) as [[bk]|]; cbn in *; [subst bk | discriminate].
  destruct (wd_list weather_data); [|eexists; reflexivity].
  cbn. rewrite I. cbn.
  destruct (relevant_forecasts _ _ _ _); eexists; reflexivity.
Qed.

Lemma reminder_accepts_parsed_bookings_witness :
  exists w',
    friday_reminder 0 {| wd_list := Some [sample 63 13 3 0.2 "Clouds"] |}
      (clock 24 0)
      {| state_file :=
           Some {| booking :=
                     Some {| bk_day := "saturday"; bk_time := "15:00" |} |};
         sent := []; printed := [] |} = Ok w'.
Proof.
  apply (reminder_accepts_parsed_bookings "booked for sat at 3pm"
           {| bk_day := "saturday"; bk_time := "15:00" |}); reflexivity.
Defined.

Lemma process_updates_outcome updates : forall state w,
  exists w',
    process_updates state updates w = Ok w'
    /\ printed w' = printed w
    /\ ((sent w' = sent w /\ state_file w' = state_file w)
        \/ (exists reply,
              sent w' = app (sent w) [reply]
              /\ state_file w' = Some {| booking := None |})
        \/ (exists reply text b,
              sent w' = app (sent w) [reply]
              /\ In {| upd_message := Some text |} updates
              /\ parse_booking (lower (get_default text "")) = Ok (Some b)
              /\ state_file w' = Some {| booking := Some b |})).
Proof.
  induction updates as [|[[text|]] updates IH]; intros state w;
    cbn [process_updates upd_message].
  - eexists. split; [reflexivity|]. split; [reflexivity|]. now left.
  - destruct (contains "stop" (lower (get_default text ""))).
    + eexists. split; [reflexivity|]. split; [reflexivity|].
      right. left. eexists. split; reflexivity.
    + destruct (parse_booking_cases (lower (get_default text "")))
        as [E|(day & hour & minute & D & H & L & E)]; rewrite E; cbn [bind].
      * destruct (IH state w) as (w' & R & P & O). exists w'.
        split; [exact R|]. split; [exact P|].
        destruct O as [O|[O|(reply & text' & b & S & I & PB & F)]];
          [now left | right; now left|].
        right. right. exists reply, text', b. repeat split; trivial.
        now right.
      * eexists. split; [reflexivity|]. split; [reflexivity|].
        right. right. eexists _, text, _.
        split; [reflexivity|]. split; [now left|]. split; [exact E|].
        reflexivity.
  - destruct (IH state w) as (w' & R & P & O). exists w'.
    split; [exact R|]. split; [exact P|].
    destruct O as [O|[O|(reply & text' & b & S & I & PB & F)]];
      [now left | right; now left|].
    right. right. exists reply, text', b. repeat split; trivial. now right.
Qed.

(** On updates whose texts are ASCII the booking check never fails.  It
    prints its one line and then does one of three things: nothing (nothing
    sent, the state file untouched); or it stores a state without booking
    and sends one reply; or it stores the booking parsed from one of the
    updates and sends one reply. *)
Theorem booking_check_outcome data w :
  (forall updates, data = Some updates -> Forall ascii_update updates) ->
  exists w',
    check_for_bookings data w = Ok w'
    /\ printed w' = app (printed w) ["Checking for booking messages..."]
    /\ ((sent w' = sent w /\ state_file w' = state_file w)
        \/ (exists reply,
              sent w' = app (sent w) [reply]
              /\ state_file w' = Some {| booking := None |})
        \/ (exists reply updates text b,
              data = Some updates
              /\ sent w' = app (sent w) [reply]
              /\ In {| upd_message := Some text |} updates
              /\ parse_booking (lower (get_default text "")) = Ok (Some b)
              /\ state_file w' = Some {| booking := Some b |})).
Proof.
  intros _. unfold check_for_bookings.
  destruct data as [[|u updates]|].
  - eexists. split; [reflexivity|]. split; [reflexivity|]. now left.
  - set (w0 := print "Checking for booking messages..." w).
    destruct (process_updates_outcome (u :: updates) (load_state w0) w0)
      as (w' & R & P & O).
    exists w'. split; [exact R|]. split; [exact P|].
    destruct O as [O|[O|(reply & text' & b & S & I & PB & F)]];
      [now left | right; now left|].
    right. right. exists reply, (u :: updates), text', b. now repeat split.
  - eexists. split; [reflexivity|]. split; [reflexivity|]. now left.
Qed.

Lemma booking_check_outcome_witness :
  exists w',
    check_for_bookings
      (Some [text_update "see you"; text_update "Booked for sunday at 15:00"])
      {| state_file := None; sent := []; printed := [] |} = Ok w'
    /\ printed w' = ["Checking for booking messages..."]
    /\ ((sent w' = [] /\ state_file w' = None)
        \/ (exists reply,
              sent w' = [reply]
              /\ state_file w' = Some {| booking := None |})
        \/ (exists reply updates text b,
              Some [text_update "see you";
                    text_update "Booked for sunday at 15:00"] = Some updates
              /\ sent w' = [reply]
              /\ In {| upd_message := Some text |} updates
              /\ parse_booking (lower (get_default text "")) = Ok (Some b)
              /\ state_file w' = Some {| booking := Some b |})).
Proof.
  apply (booking_check_outcome
           (Some [text_update "see you";
                  text_update "Booked for sunday at 15:00"])
           {| state_file := None; sent := []; printed := [] |}).
  intros updates E. injection E as <-.
  repeat constructor.
Defined.

Lemma min_by_least {A : Type} (key : A -> Z) l : forall x y,
  In y (x :: l) -> key (min_by key x l) <= key y.
Proof.
  induction l as [|z l IH]; intros x y Hy; cbn [min_by].
  - destruct Hy as [<-|[]]. lia.
  - assert (K : key (if key z <? key x then z else x) <= key x
                /\ key (if key z <? key x then z else x) <= key z).
    { destruct (key z <? key x) eqn:E;
        [apply Z.ltb_lt in E | apply Z.ltb_ge in E]; lia. }
    destruct Hy as [<-|[<-|Hy]].
    + etransitivity; [apply IH; now left | apply K].
    + etransitivity; [apply IH; now left | apply K].
    + apply IH. now right.
Qed.

(** The reminder reports the forecast nearest to the booked hour: it is a
    forecast of the booked day, its hour is within two of the booked hour,
    and no forecast of the booked day has an hour nearer to it. *)
Theorem reminder_uses_nearest_forecast
  tz weather_data now w b forecasts target_hour :
  booking (load_state w) = Some b ->
  wd_list weather_data = Some forecasts ->
  py_int (before_colon (bk_time b)) = Ok target_hour ->
  relevant_forecasts tz (target_day_of (bk_day b) now) target_hour forecasts
  <> [] ->
  exists w' closest,
    friday_reminder tz weather_data now w = Ok w'
    /\ sent w'
       = app (sent w) [reminder_message (bk_day b) (bk_time b) closest]
    /\ In closest forecasts
    /\ dt_date (fromtimestamp tz (fc_dt closest))
       = dt_date (target_day_of (bk_day b) now)
    /\ Z.abs (hour_of tz closest - target_hour) <= 2
    /\ forall f, In f forecasts ->
         dt_date (fromtimestamp tz (fc_dt f))
         = dt_date (target_day_of (bk_day b) now) ->
         Z.abs (hour_of tz closest - target_hour)
         <= Z.abs (hour_of tz f - target_hour).
Proof.
  intros B L I R.
  unfold friday_reminder, load_state in *. cbn.
  destruct (state_file w) as [[bk]|]; cbn in *; [subst bk | discriminate].
  rewrite L, I. cbn.
  set (day := target_day_of (bk_day b) now) in *.
  destruct (relevant_forecasts tz day target_hour forecasts)
    as [|first others] eqn:E; [congruence|].
  set (key := fun x => Z.abs (dt_hour (fromtimestamp tz (fc_dt x))
                              - target_hour)).
  assert (M : forall f, In f (first :: others) <->
                In f forecasts
                /\ dt_date (fromtimestamp tz (fc_dt f)) = dt_date day
                /\ key f <= 2).
  { intros f. rewrite <- E. unfold relevant_forecasts.
    rewrite filter_In, andb_true_iff, Z.eqb_eq, Z.leb_le. reflexivity. }
  pose proof (min_by_In key others first) as C. apply M in C.
  destruct C as (C1 & C2 & C3).
  do 2 eexists. split; [reflexivity|]. cbn.
  split; [reflexivity|]. split; [exact C1|]. split; [exact C2|].
  split; [exact C3|].
  intros f Hf Df. change (key (min_by key first others) <= key f).
  destruct (Z_le_gt_dec (key f) 2) as [K|K].
  - apply min_by_least, M. tauto.
  - lia.
Qed.

Lemma reminder_uses_nearest_forecast_witness :
  exists w' closest,
    friday_reminder 0
      {| wd_list := Some [sample 60 12 3 0.2 "Clouds";
                          sample 63 13 3 0.2 "Clouds";
                          sample 66 11 3 0.2 "Clouds"] |}
      (clock 24 0)
      {| state_file :=
           Some {| booking :=
                     Some {| bk_day := "saturday"; bk_time := "16:00" |} |};
         sent := []; printed := [] |} = Ok w'
    /\ sent w' = [reminder_message "saturday" "16:00" closest]
    /\ In closest [sample 60 12 3 0.2 "Clouds"; sample 63 13 3 0.2 "Clouds";
                   sample 66 11 3 0.2 "Clouds"]
    /\ dt_date (fromtimestamp 0 (fc_dt closest))
       = dt_date (target_day_of "saturday" (clock 24 0))
    /\ Z.abs (hour_of 0 closest - 16) <= 2
    /\ forall f,
         In f [sample 60 12 3 0.2 "Clouds"; sample 63 13 3 0.2 "Clouds";
               sample 66 11 3 0.2 "Clouds"] ->
         dt_date (fromtimestamp 0 (fc_dt f))
         = dt_date (target_day_of "saturday" (clock 24 0)) ->
         Z.abs (hour_of 0 closest - 16) <= Z.abs (hour_of 0 f - 16).
Proof.
  apply (reminder_uses_nearest_forecast 0 _ (clock 24 0)
           {| state_file :=
                Some {| booking :=
                          Some {| bk_day := "saturday";
                                  bk_time := "16:00" |} |};
              sent := []; printed := [] |}
           {| bk_day := "saturday"; bk_time := "16:00" |}
           [sample 60 12 3 0.2 "Clouds"; sample 63 13 3 0.2 "Clouds";
            sample 66 11 3 0.2 "Clouds"] 16);
    try reflexivity.
  discriminate.
Defined.

(** The day the reminder looks at is the coming Saturday when the booking
    says saturday (in any case of letters) and the coming Sunday for any
    other day text: it has that weekday, lies from 0 to 6 days after the run
    and keeps the time of day of the run. *)
Theorem target_day_is_the_coming_weekend_day day today :
  dt_weekday (target_day_of day today)
  = (if (lower day =? "saturday")%string then 5 else 6)
  /\ dt_date today <= dt_date (target_day_of day today) <= dt_date today + 6
  /\ target_day_of day today mod 86400 = today mod 86400.
Proof.
  assert (G : forall k, 0 <= k < 7 ->
    dt_weekday (today + timedelta_days ((k - dt_weekday today) mod 7)) = k
    /\ dt_date today
       <= dt_date (today + timedelta_days ((k - dt_weekday today) mod 7))
       <= dt_date today + 6
    /\ (today + timedelta_days ((k - dt_weekday today) mod 7)) mod 86400
       = today mod 86400).
  { intros k Hk. unfold dt_weekday, dt_date, timedelta_days.
    set (n := (k - (today / 86400 + 3) mod 7) mod 7).
    assert (Hn : 0 <= n < 7) by (apply Z.mod_pos_bound; lia).
    rewrite Z.div_add by lia. rewrite Z.mod_add by lia.
    repeat split; try lia.
    unfold n.
    replace (today / 86400 + (k - (today / 86400 + 3) mod 7) mod 7 + 3)
      with ((today / 86400 + 3) + (k - (today / 86400 + 3) mod 7) mod 7)
      by lia.
    rewrite Z.add_mod_idemp_r by lia.
    replace (today / 86400 + 3 + (k - (today / 86400 + 3) mod 7))
      with (k + ((today / 86400 + 3) - (today / 86400 + 3) mod 7)) by lia.
    rewrite (Z.div_mod (today / 86400 + 3) 7) at 1 by lia.
    replace (k + (7 * ((today / 86400 + 3) / 7) + (today / 86400 + 3) mod 7
                  - (today / 86400 + 3) mod 7))
      with (k + ((today / 86400 + 3) / 7) * 7) by lia.
    rewrite Z.mod_add by lia. apply Z.mod_small. lia. }
  unfold target_day_of. destruct (lower day =? "saturday")%string.
  - apply (G 5). lia.
  - apply (G 6). lia.
Qed.

(* ================================================================== *)
(** * The weekly advisory *)

Lemma weekend_forecasts_split tz saturday sunday forecasts :
  weekend_forecasts tz saturday sunday forecasts
  = (filter (fun f => dt_date (fromtimestamp tz (fc_dt f))
                      =? dt_date saturday) forecasts,
     filter (fun f => negb (dt_date (fromtimestamp tz (fc_dt f))
                            =? dt_date saturday)
                      && (dt_date (fromtimestamp tz (fc_dt f))
                          =? dt_date sunday)) forecasts).
Proof.
  unfold weekend_forecasts.
  enough (G : forall a b,
    fold_left
      (fun lists forecast =>
         let '(saturday_forecasts, sunday_forecasts) := lists in
         let dt := fromtimestamp tz (fc_dt forecast) in
         if dt_date dt =? dt_date saturday
         then (app saturday_forecasts [forecast], sunday_forecasts)
         else if dt_date dt =? dt_date sunday
         then (saturday_forecasts, app sunday_forecasts [forecast])
         else lists)
      forecasts (a, b)
    = (app a (filter (fun f => dt_date (fromtimestamp tz (fc_dt f))
                               =? dt_date saturday) forecasts),
       app b (filter (fun f => negb (dt_date (fromtimestamp tz (fc_dt f))
                                     =? dt_date saturday)
                               && (dt_date (fromtimestamp tz (fc_dt f))
                                   =? dt_date sunday)) forecasts)))
    by apply (G [] []).
  induction forecasts as [|f forecasts IH]; intros a b; cbn [fold_left filter].
  - now rewrite !app_nil_r.
  - cbv zeta.
    destruct (dt_date (fromtimestamp tz (fc_dt f)) =? dt_date saturday);
      cbn [negb andb].
    + rewrite IH, <- app_assoc. reflexivity.
    + destruct (dt_date (fromtimestamp tz (fc_dt f)) =? dt_date sunday).
      * rewrite IH, <- app_assoc. reflexivity.
      * apply IH.
Qed.

Lemma analysis_of_nothing_in_scope tz l sunset :
  (forall f, In f l -> in_scope tz (cutoff_of sunset) f = false) ->
  analysis_of tz l sunset = initial_results.
Proof.
  intros H. unfold analysis_of. rewrite in_scope_sorted_filter.
  rewrite (filter_none _ _ H). reflexivity.
Qed.

Lemma dt_date_plus_days d k :
  dt_date (d + timedelta_days k) = dt_date d + k.
Proof.
  unfold dt_date, timedelta_days. apply Z.div_add. lia.
Qed.

(** A sample of a later day than the sunset is after the sunset cutoff. *)
Lemma later_day_out_of_scope tz sunset f :
  dt_date sunset < dt_date (fromtimestamp tz (fc_dt f)) ->
  in_scope tz (cutoff_of sunset) f = false.
Proof.
  unfold dt_date. intros H.
  assert (L : sunset < fromtimestamp tz (fc_dt f)).
  { destruct (Z_lt_le_dec sunset (fromtimestamp tz (fc_dt f))) as [G|G];
      trivial.
    apply (Z.div_le_mono _ _ 86400) in G; lia. }
  unfold in_scope, out_of_scope, cutoff_of, timedelta_hours,
    HOURS_BEFORE_SUNSET.
  apply negb_false_iff, orb_true_iff. right. apply Z.ltb_lt. lia.
Qed.

(** The forecasts of the day after [saturday] are not of [saturday]. *)
Lemma sunday_filter tz saturday forecasts :
  filter (fun f => negb (dt_date (fromtimestamp tz (fc_dt f))
                         =? dt_date saturday)
                   && (dt_date (fromtimestamp tz (fc_dt f))
                       =? dt_date (saturday + timedelta_days 1))) forecasts
  = filter (fun f => dt_date (fromtimestamp tz (fc_dt f))
                     =? dt_date (saturday + timedelta_days 1)) forecasts.
Proof.
  apply filter_ext. intros f. rewrite dt_date_plus_days.
  destruct (dt_date (fromtimestamp tz (fc_dt f)) =? dt_date saturday + 1)
    eqn:E; [|now rewrite andb_false_r].
  apply Z.eqb_eq in E. rewrite andb_true_r.
  apply negb_true_iff, Z.eqb_neq. lia.
Qed.

(** The advisory run on a forecast response and two sunset replies (taken
    with the keys the run reads: city.coord, sys.sunset) never touches the
    state file, prints its line and sends one message.  Without the key
    list the message is the error text.  With it, the message is the weekend
    message of two analyses: of the forecasts whose local date is the coming
    Saturday, with the first sunset, and of those of the day after, with the
    second. *)
Theorem advisory_sends_one_message
  tz weather_data now sat_sys_sunset sun_sys_sunset w :
  exists w' message,
    wednesday_check tz weather_data now sat_sys_sunset sun_sys_sunset w
    = Ok w'
    /\ sent w' = app (sent w) [message]
    /\ state_file w' = state_file w
    /\ printed w' = app (printed w) ["Running Wednesday weather check..."]
    /\ (wd_list weather_data = None ->
        message = "‚ùå Error fetching weather data")
    /\ (forall forecasts,
          wd_list weather_data = Some forecasts ->
          exists sat_left sat_analysis sun_left sun_analysis,
            analyze_day_weather tz
              (filter (fun f => dt_date (fromtimestamp tz (fc_dt f))
                                =? dt_date (target_day_of "saturday" now))
                      forecasts)
              "Saturday" (fromtimestamp tz sat_sys_sunset)
            = Ok (sat_left, sat_analysis)
            /\ analyze_day_weather tz
                 (filter (fun f => dt_date (fromtimestamp tz (fc_dt f))
                                   =? dt_date (target_day_of "saturday" now
                                               + timedelta_days 1))
                         forecasts)
                 "Sunday" (fromtimestamp tz sun_sys_sunset)
               = Ok (sun_left, sun_analysis)
            /\ message
               = weekend_message
                   sat_analysis (fromtimestamp tz sat_sys_sunset)
                   sun_analysis (fromtimestamp tz sun_sys_sunset)).
Proof.
  unfold wednesday_check. destruct (wd_list weather_data) as [forecasts|].
  - rewrite weekend_forecasts_split, sunday_filter.
    rewrite !analyze_day_weather_eq. cbn [bind snd].
    do 2 eexists. split; [reflexivity|]. split; [reflexivity|].
    split; [reflexivity|]. split; [reflexivity|].
    split; [discriminate|].
    intros forecasts' E. injection E as <-.
    rewrite !analyze_day_weather_eq. do 4 eexists.
    split; [reflexivity|]. split; reflexivity.
  - do 2 eexists. split; [reflexivity|]. split; [reflexivity|].
    split; [reflexivity|]. split; [reflexivity|].
    split; [reflexivity | discriminate].
Qed.

(** [get_sunset_time] returns the sunset of the response whatever date it
    was asked for.  When the two sunsets it returns are of the day of the
    run or earlier, and the run is not on a Saturday, every forecast of the
    weekend is after the sunset cutoff: the advisory is the message of two
    days without an in-scope sample, each "Not ideal" with the line "Rain
    forecast throughout playing hours" whatever the forecasts say, closed by
    "No tennis this week". *)
Theorem stale_sunset_means_no_tennis
  tz weather_data forecasts now sat_sys_sunset sun_sys_sunset w :
  wd_list weather_data = Some forecasts ->
  dt_date (fromtimestamp tz sat_sys_sunset) <= dt_date now ->
  dt_date (fromtimestamp tz sun_sys_sunset) <= dt_date now ->
  dt_weekday now <> 5 ->
  exists w',
    wednesday_check tz weather_data now sat_sys_sunset sun_sys_sunset w
    = Ok w'
    /\ sent w'
       = app (sent w)
           [weekend_message
              initial_results (fromtimestamp tz sat_sys_sunset)
              initial_results (fromtimestamp tz sun_sys_sunset)]
    /\ format_day_report "Saturday" initial_results
         (fromtimestamp tz sat_sys_sunset)
       = nothing_in_scope_report "Saturday" (fromtimestamp tz sat_sys_sunset)
    /\ format_day_report "Sunday" initial_results
         (fromtimestamp tz sun_sys_sunset)
       = nothing_in_scope_report "Sunday" (fromtimestamp tz sun_sys_sunset)
    /\ playable initial_results || playable initial_results = false.
Proof.
  intros L S1 S2 Wd.
  unfold wednesday_check. rewrite L, weekend_forecasts_split.
  rewrite !analyze_day_weather_eq. cbn [bind snd].
  unfold get_sunset_time.
  set (k := (5 - dt_weekday now) mod 7).
  assert (Hk : 1 <= k < 7).
  { assert (B : 0 <= dt_weekday now < 7)
      by (unfold dt_weekday; apply Z.mod_pos_bound; lia).
    assert (0 <= k < 7) by (apply Z.mod_pos_bound; lia).
    destruct (Z.eq_dec k 0) as [K0|]; [|lia].
    exfalso. apply Wd. unfold k in K0.
    apply Z.mod_divide in K0; [|lia]. destruct K0 as [q Hq]. lia. }
  rewrite !analysis_of_nothing_in_scope.
  - eexists. split; [reflexivity|]. split; [reflexivity|].
    split; [|split]; try reflexivity;
      unfold format_day_report, nothing_in_scope_report; cbn;
      repeat first [rewrite append_assoc | progress cbn [append]];
      reflexivity.
  - intros f Hf. apply filter_In in Hf. destruct Hf as [_ Hf].
    apply andb_true_iff in Hf. destruct Hf as [_ Hf]. apply Z.eqb_eq in Hf.
    apply later_day_out_of_scope. rewrite Hf, !dt_date_plus_days. lia.
  - intros f Hf. apply filter_In in Hf. destruct Hf as [_ Hf].
    apply Z.eqb_eq in Hf.
    apply later_day_out_of_scope. rewrite Hf, dt_date_plus_days. lia.
Qed.

Lemma stale_sunset_means_no_tennis_witness :
  exists w',
    wednesday_check 0
      {| wd_list := Some [sample 57 12 3 0 "Clear"; sample 60 14 3 0 "Clear";
                          sample 84 13 3 0 "Clear"] |}
      (clock 10 0) (clock 20 0) (clock 20 0)
      {| state_file := None; sent := []; printed := [] |} = Ok w'
    /\ sent w'
       = [weekend_message initial_results (fromtimestamp 0 (clock 20 0))
            initial_results (fromtimestamp 0 (clock 20 0))]
    /\ format_day_report "Saturday" initial_results
         (fromtimestamp 0 (clock 20 0))
       = nothing_in_scope_report "Saturday" (fromtimestamp 0 (clock 20 0))
    /\ format_day_report "Sunday" initial_results
         (fromtimestamp 0 (clock 20 0))
       = nothing_in_scope_report "Sunday" (fromtimestamp 0 (clock 20 0))
    /\ playable initial_results || playable initial_results = false.
Proof.
  apply (stale_sunset_means_no_tennis 0 _
           [sample 57 12 3 0 "Clear"; sample 60 14 3 0 "Clear";
            sample 84 13 3 0 "Clear"] (clock 10 0) (clock 20 0) (clock 20 0)
           {| state_file := None; sent := []; printed := [] |}).
  - reflexivity.
  - cbv. discriminate.
  - cbv. discriminate.
  - cbv. discriminate.
Defined.

(* ================================================================== *)
(** * The booking check and the reminder run, one after the other *)

(** The first update that is a command decides the run: once an update says
    stop, or holds a booking, the updates after it are not read, so that a
    stop sent after a booking in the same batch is not obeyed. *)
Theorem first_command_wins text later w :
  contains "stop" (lower text) = true
  \/ (exists b, parse_booking (lower text) = Ok (Some b)) ->
  check_for_bookings (Some (text_update text :: later)) w
  = check_for_bookings (Some [text_update text]) w.
Proof.
  intros H. unfold check_for_bookings.
  cbn [process_updates text_update upd_message get_default].
  destruct (contains "stop" (lower text)); [reflexivity|].
  destruct H as [H|(b & H)]; [discriminate|].
  rewrite H. reflexivity.
Qed.

Lemma first_command_wins_witness :
  check_for_bookings
    (Some [text_update "Booked for sunday at 15:00"; text_update "stop"])
    {| state_file := None; sent := []; printed := [] |}
  = check_for_bookings (Some [text_update "Booked for sunday at 15:00"])
      {| state_file := None; sent := []; printed := [] |}.
Proof.
  apply first_command_wins. right. eexists. reflexivity.
Defined.

(** After a stop the reminder run stays silent: the run that follows a
    booking check whose first update says stop sends nothing and leaves the
    state file as the check wrote it. *)
Theorem stop_silences_the_reminder text later w tz weather_data now :
  contains "stop" (lower text) = true ->
  exists w1 w2,
    check_for_bookings (Some (text_update text :: later)) w = Ok w1
    /\ friday_reminder tz weather_data now w1 = Ok w2
    /\ sent w2 = sent w1
    /\ state_file w2 = state_file w1.
Proof.
  intros H. unfold check_for_bookings.
  cbn [process_updates text_update upd_message get_default]. rewrite H.
  do 2 eexists. split; [reflexivity|]. split; [reflexivity|].
  split; reflexivity.
Qed.

Lemma stop_silences_the_reminder_witness :
  exists w1 w2,
    check_for_bookings (Some [text_update "Stop for this week"])
      {| state_file :=
           Some {| booking :=
                     Some {| bk_day := "sunday"; bk_time := "15:00" |} |};
         sent := []; printed := [] |} = Ok w1
    /\ friday_reminder 0 {| wd_list := Some [] |} (clock 24 0) w1 = Ok w2
    /\ sent w2 = sent w1
    /\ state_file w2 = state_file w1.
Proof.
  apply stop_silences_the_reminder. reflexivity.
Defined.

(** A reminder is sent once: after a run that sent the reminder of a
    booking, a further run, at any time and on any forecast response, sends
    nothing more. *)
Theorem reminder_is_sent_once
  tz weather_data now w b forecasts target_hour weather_data' now' :
  booking (load_state w) = Some b ->
  wd_list weather_data = Some forecasts ->
  py_int (before_colon (bk_time b)) = Ok target_hour ->
  relevant_forecasts tz (target_day_of (bk_day b) now) target_hour forecasts
  <> [] ->
  exists w1 w2 reminder,
    friday_reminder tz weather_data now w = Ok w1
    /\ sent w1 = app (sent w) [reminder]
    /\ friday_reminder tz weather_data' now' w1 = Ok w2
    /\ sent w2 = sent w1
    /\ state_file w2 = Some {| booking := None |}.
Proof.
  intros B L I R.
  unfold friday_reminder at 1. unfold load_state in *. cbn.
  destruct (state_file w) as [[bk]|]; cbn in *; [subst bk | discriminate].
  rewrite L, I. cbn.
  destruct (relevant_forecasts _ _ _ _) as [|first others]; [congruence|].
  do 3 eexists. split; [reflexivity|]. split; [reflexivity|].
  split; [reflexivity|]. split; reflexivity.
Qed.

Lemma reminder_is_sent_once_witness :
  exists w1 w2 reminder,
    friday_reminder 0 {| wd_list := Some [sample 63 13 3 0.2 "Clouds"] |}
      (clock 24 0)
      {| state_file :=
           Some {| booking :=
                     Some {| bk_day := "saturday"; bk_time := "15:00" |} |};
         sent := []; printed := [] |} = Ok w1
    /\ sent w1 = [reminder]
    /\ friday_reminder 0 {| wd_list := Some [sample 63 13 3 0.2 "Clouds"] |}
         (clock 24 0) w1 = Ok w2
    /\ sent w2 = sent w1
    /\ state_file w2 = Some {| booking := None |}.
Proof.
  apply (reminder_is_sent_once 0 _ (clock 24 0)
           {| state_file :=
                Some {| booking :=
                          Some {| bk_day := "saturday";
                                  bk_time := "15:00" |} |};
              sent := []; printed := [] |}
           {| bk_day := "saturday"; bk_time := "15:00" |}
           [sample 63 13 3 0.2 "Clouds"] 15); try reflexivity.
  discriminate.
Defined.

(* ================================================================== *)
(** * The order of the windows *)

(** The runs of a list that is sorted for a relation: the samples of a run
    are sorted, they are samples of the list, and every sample of a run is
    related to every sample of a later run. *)
Lemma runs_pairwise (R : Forecast -> Forecast -> Prop) fs runs :
  dry_runs fs runs ->
  StronglySorted R fs ->
  StronglySorted
    (fun r1 r2 => forall a b, In a (run_samples r1) -> In b (run_samples r2) ->
                              R a b) runs
  /\ Forall (fun run => StronglySorted R (run_samples run)
                        /\ forall x, In x (run_samples run) -> In x fs) runs.
Proof.
  induction 1 as [|f fs runs D Rn IH|f run D F|f run g fs runs D F Dg Rn IH];
    intros S.
  - split; constructor.
  - apply StronglySorted_inv in S. destruct S as [S _].
    destruct (IH S) as (I1 & I2). split; trivial.
    eapply Forall_impl; [|exact I2]. intros run [H1 H2].
    split; trivial. intros x Hx. right. now apply H2.
  - split; [repeat constructor|].
    constructor; [|constructor]. split; trivial.
  - change (f :: app run (g :: fs)) with (app (f :: run) (g :: fs)) in S.
    apply StronglySorted_app_inv in S. destruct S as (S1 & S2 & C).
    pose proof (StronglySorted_inv S2) as [S3 _].
    destruct (IH S3) as (I1 & I2).
    assert (M : forall x, In x fs -> In x (app (f :: run) (g :: fs))).
    { intros x Hx. apply in_or_app. right. now right. }
    split.
    + constructor; trivial.
      rewrite Forall_forall in *. intros run' Hrun' a b Ha Hb.
      apply C; [exact Ha|]. right. apply (proj2 (I2 run' Hrun')), Hb.
    + constructor.
      * split; [exact S1|]. intros x Hx.
        apply (in_or_app (f :: run) (g :: fs)). now left.
      * eapply Forall_impl; [|exact I2]. intros run' [H1 H2].
        split; trivial. intros x Hx. apply M, H2, Hx.
Qed.

Lemma hours_increase_trans tz : Relations_1.Transitive (hours_increase tz).
Proof.
  intros a b c. unfold hours_increase. lia.
Qed.

(** C3, as the code has it.  The windows stand in the chronological order
    of their samples, for every input: every sample of a window is at or
    before every sample of a later window.  When the hours of the in-scope
    samples increase along that order (samples of one day, hourly or
    wider), the windows are in increasing order, each starting later and
    ending later than the one before, and each lasts three hours at least.
    When those hours are at least two apart (as on the provider's
    three-hourly samples), each window ends no later than the next one
    starts. *)
Theorem windows_in_order tz l name sunset :
  exists l' r runs,
    analyze_day_weather tz l name sunset = Ok (l', r)
    /\ dry_runs (in_scope_sorted tz (cutoff_of sunset) l) runs
    /\ find_dry_windows tz (cutoff_of sunset) l'
       = Ok (map (window_of_run tz) runs)
    /\ windows r
       = map (describe_window (rain_between tz None (Some 12) l)
                              (rain_between tz (Some 12) (Some 18) l))
             (map (window_of_run tz) runs)
    /\ StronglySorted run_precedes runs
    /\ (Sorted (hours_increase tz) (in_scope_sorted tz (cutoff_of sunset) l) ->
        StronglySorted later (map (window_of_run tz) runs)
        /\ Forall three_hours (map (window_of_run tz) runs))
    /\ (Sorted (two_hours_apart tz)
          (in_scope_sorted tz (cutoff_of sunset) l) ->
        StronglySorted before (map (window_of_run tz) runs)).
Proof.
  set (c := cutoff_of sunset).
  destruct (proj1 (collect_runs tz (in_scope_sorted tz c l)))
    as (runs & R & E).
  rewrite analyze_day_weather_eq.
  exists (map (enrich tz) l), (analysis_of tz l sunset), runs.
  split; [reflexivity|]. split; [exact R|].
  split; [now rewrite find_dry_windows_enrich, E|].
  split; [unfold analysis_of; cbn [windows]; fold c; now rewrite E|].
  split; [|split].
  - apply (runs_pairwise dt_le _ _ R (in_scope_sorted_sorted tz c l)).
  - intros S.
    apply (Sorted_StronglySorted (hours_increase_trans tz)) in S.
    destruct (runs_pairwise _ _ _ R S) as (P & M). clear R E.
    assert (L : forall run,
               StronglySorted (hours_increase tz) (run_samples run) ->
               hour_of tz (fst run) <= hour_of tz (last (snd run) (fst run))).
    { intros run Sr.
      destruct (StronglySorted_last _ _ _ Sr (fst run) (or_introl eq_refl))
        as [H|H]; [rewrite <- H; lia | unfold hours_increase in H; lia]. }
    split.
    + induction P as [|run runs P IH F]; cbn [map]; constructor.
      * apply IH. now apply Forall_inv_tail in M.
      * rewrite Forall_forall in *. intros w Hw.
        apply in_map_iff in Hw. destruct Hw as (run' & <- & Hrun').
        pose proof (F run' Hrun') as Cr. unfold later, hours_increase in *.
        cbn [window_of_run dw_start dw_end].
        pose proof (Cr (fst run) (fst run') (or_introl eq_refl)
                      (or_introl eq_refl)).
        pose proof (Cr (last (snd run) (fst run))
                      (last (snd run') (fst run'))
                      (last_In _ _) (last_In _ _)).
        lia.
    + apply Forall_forall. intros w Hw.
      apply in_map_iff in Hw. destruct Hw as (run & <- & Hrun).
      rewrite Forall_forall in M. destruct (M run Hrun) as [Sr _].
      unfold three_hours. cbn [window_of_run dw_start dw_end].
      specialize (L run Sr). lia.
  - intros S.
    apply (Sorted_StronglySorted (two_hours_apart_trans tz)) in S.
    apply (runs_in_order tz _ _ R S).
Qed.

(** The hourly samples on which windows overlap still give windows in
    increasing order, and three-hourly samples give windows that do not
    overlap. *)
Lemma windows_in_order_witness :
  (exists l' r runs,
      analyze_day_weather 0
        [sample 9 12 3 0 "Clear"; sample 10 12 3 0.8 "Rain";
         sample 11 13 3 0 "Clear"] "Saturday" (clock 20 0) = Ok (l', r)
      /\ map w_time (windows r) = ["09:00-12:00"; "11:00-14:00"]
      /\ StronglySorted later (map (window_of_run 0) runs)
      /\ Forall three_hours (map (window_of_run 0) runs))
  /\ (exists l' r runs,
        analyze_day_weather 0
          [sample 9 12 4.47 0 "Clouds"; sample 12 14 8.94 0 "Clouds";
           sample 15 13 3.58 0 "Clear"] "Saturday" (clock 20 0) = Ok (l', r)
        /\ map w_time (windows r) = ["09:00-12:00"; "15:00-18:00"]
        /\ StronglySorted before (map (window_of_run 0) runs)).
Proof.
  split.
  - destruct (windows_in_order 0
                [sample 9 12 3 0 "Clear"; sample 10 12 3 0.8 "Rain";
                 sample 11 13 3 0 "Clear"] "Saturday" (clock 20 0))
      as (l' & r & runs & E & _ & _ & _ & _ & H & _).
    exists l', r, runs. split; [exact E|].
    rewrite analyze_day_weather_eq in E. injection E as _ <-.
    split; [reflexivity|].
    apply H. repeat constructor; unfold hours_increase; cbn; lia.
  - destruct (windows_in_order 0
                [sample 9 12 4.47 0 "Clouds"; sample 12 14 8.94 0 "Clouds";
                 sample 15 13 3.58 0 "Clear"] "Saturday" (clock 20 0))
      as (l' & r & runs & E & _ & _ & _ & _ & _ & H).
    exists l', r, runs. split; [exact E|].
    rewrite analyze_day_weather_eq in E. injection E as _ <-.
    split; [reflexivity|].
    apply H. repeat constructor; unfold two_hours_apart; cbn; lia.
Defined.

(* ================================================================== *)
(** * The am/pm rules on messages that hold the letters in a word *)

(** C6, at failing inputs.  The rules test the whole lower-cased message
    for the letters "am" and "pm", where line 358 says "no am/pm
    specified": a booking for 3, with no am or pm at the time, is stored as
    03:00 when the message says "I am"; one for 12 as 00:00 when it says
    "same"; one for 10 as 22:00 when it says "equipment". *)
Lemma meridiem_letters_inside_words :
  (exists w',
      check_for_bookings (Some [text_update "I am booked for sunday at 3"])
        {| state_file := None; sent := []; printed := [] |} = Ok w'
      /\ state_file w'
         = Some {| booking :=
                     Some {| bk_day := "sunday"; bk_time := "03:00" |} |})
  /\ (exists w',
        check_for_bookings
          (Some [text_update "Booked for sunday at 12, same court"])
          {| state_file := None; sent := []; printed := [] |} = Ok w'
        /\ state_file w'
           = Some {| booking :=
                       Some {| bk_day := "sunday"; bk_time := "00:00" |} |})
  /\ (exists w',
        check_for_bookings
          (Some [text_update "Booked for sunday at 10, equipment ready"])
          {| state_file := None; sent := []; printed := [] |} = Ok w'
        /\ state_file w'
           = Some {| booking :=
                       Some {| bk_day := "sunday"; bk_time := "22:00" |} |}).
Proof.
  repeat split; eexists; split; reflexivity.
Qed.

(* ================================================================== *)
(** * The reminder run on a response without a near forecast *)

